(** * Sentiment inference pipeline of the Python agent service

    A shallow embedding of [src/py-agent/main.py]: the keyword heuristic
    [mock_analyze_news], the provider path [real_analyze_news] with its two
    nested exception handlers, and the [/analyze] endpoint [analyze_news].

    Python values are modelled as the interpreter has them:
    - [str] is a sequence of Unicode code points ([list N]); [len], slicing
      and [in] work on code points;
    - [int] is [Z];
    - [float] is an IEEE 754 binary64 number ([spec_float] with [prec = 53]
      and [emax = 1024]), with the correctly rounded operations of
      [SpecFloat];
    - exceptions are values of [exn], raised and caught in a small
      writer-and-error monad whose trace records the log records and the
      provider calls in the order the code performs them. *)

From stdpp Require Import base option list gmap.
From Stdlib Require Import ZArith NArith Bool Ascii String DecimalString SpecFloat Lia.

Set Warnings "-register-all".
Local Open Scope Z_scope.

(** [length] is the length of a list throughout, not [String.length]. *)
Abbreviation length := Datatypes.length.

(** ** Python strings *)

Definition pystr := list N.

Module Utf8.

Definition byte_of (a : ascii) : N := N_of_ascii a.

Fixpoint bytes (s : string) : list N :=
  match s with
  | EmptyString => []
  | String a r => byte_of a :: bytes r
  end.

Definition cont (b : N) : N := (b - 128)%N.

(** The source file is UTF-8; a literal of this file is the byte sequence
    of the same text, decoded here into its code points. *)
Fixpoint decode (bs : list N) : pystr :=
  match bs with
  | [] => []
  | b0 :: r0 =>
    if (b0 <? 128)%N then b0 :: decode r0
    else if (b0 <? 224)%N then
      match r0 with
      | b1 :: r1 => ((b0 - 192) * 64 + cont b1)%N :: decode r1
      | _ => []
      end
    else if (b0 <? 240)%N then
      match r0 with
      | b1 :: b2 :: r2 =>
        ((b0 - 224) * 4096 + cont b1 * 64 + cont b2)%N :: decode r2
      | _ => []
      end
    else
      match r0 with
      | b1 :: b2 :: b3 :: r3 =>
        ((b0 - 240) * 262144 + cont b1 * 4096 + cont b2 * 64 + cont b3)%N
          :: decode r3
      | _ => []
      end
  end.

End Utf8.

(** [u "text"] is the Python string literal ["text"]. *)
Definition u (s : string) : pystr := Utf8.decode (Utf8.bytes s).
Arguments u s%_string.

(** The double quote, which the literals below splice in where the
    source has it inside a string. *)
Definition dquote : pystr := [34%N].

(** [s.startswith(p)] *)
Fixpoint startswith (p s : pystr) : bool :=
  match p, s with
  | [], _ => true
  | _ :: _, [] => false
  | a :: p', b :: s' => (a =? b)%N && startswith p' s'
  end.

(** [p in s] on strings: [p] occurs in [s] as a contiguous run. *)
Fixpoint py_in (p s : pystr) : bool :=
  startswith p s ||
  match s with
  | [] => false
  | _ :: s' => py_in p s'
  end.

(** [str(n)] for an [int]. *)
Definition str_of_int (n : Z) : pystr :=
  Utf8.bytes (NilZero.string_of_int (Z.to_int n)).

(** [s[:n]] for [n >= 0]. *)
Definition slice_to (n : nat) (s : pystr) : pystr := take n s.

(** [sep.join(parts)] *)
Fixpoint join (sep : pystr) (parts : list pystr) : pystr :=
  match parts with
  | [] => []
  | [p] => p
  | p :: rest => p ++ sep ++ join sep rest
  end.

(** [str.isspace] on one code point: the characters [str.strip()] removes. *)
Definition isspace (c : N) : bool :=
  ((9 <=? c) && (c <=? 13) || (28 <=? c) && (c <=? 32) || (c =? 133) ||
   (c =? 160) || (c =? 5760) || (8192 <=? c) && (c <=? 8202) ||
   (c =? 8232) || (c =? 8233) || (c =? 8239) || (c =? 8287) ||
   (c =? 12288))%N.

Fixpoint lstrip (s : pystr) : pystr :=
  match s with
  | [] => []
  | c :: r => if isspace c then lstrip r else s
  end.

Definition rstrip (s : pystr) : pystr := reverse (lstrip (reverse s)).

(** [s.strip()] *)
Definition strip (s : pystr) : pystr := rstrip (lstrip s).

(** ** Python floats *)

Module Float.

Definition prec : Z := 53.
Definition emax : Z := 1024.

Definition float := spec_float.

Definition add : float -> float -> float := SFadd prec emax.
Definition mul : float -> float -> float := SFmul prec emax.
Definition div : float -> float -> float := SFdiv prec emax.
Definition ltb : float -> float -> bool := SFltb.
Definition leb : float -> float -> bool := SFleb.

(** [float(n)] for an [int] within the range of a double: the nearest
    double, ties to even.  CPython raises OverflowError instead of
    returning an infinity when [n] is beyond the largest double
    (about 1.8e308); see [of_int_checked] for that check. *)
Definition of_int (n : Z) : float := binary_normalize prec emax n 0 false.

(** A decimal literal [num/den] of the source, rounded once to the
    nearest double as the Python compiler does. *)
Definition lit (num den : Z) : float := div (of_int num) (of_int den).

Definition f0_0 : float := Eval vm_compute in of_int 0.
Definition f1_0 : float := Eval vm_compute in of_int 1.
Definition f0_1 : float := Eval vm_compute in lit 1 10.
Definition f0_5 : float := Eval vm_compute in lit 5 10.
Definition f0_6 : float := Eval vm_compute in lit 6 10.
Definition f0_7 : float := Eval vm_compute in lit 7 10.
Definition f0_8 : float := Eval vm_compute in lit 8 10.
Definition f0_9 : float := Eval vm_compute in lit 9 10.

(** The builtin [min(a, b)]: [b] replaces [a] only when [b < a]. *)
Definition py_min (a b : float) : float := if ltb b a then b else a.

(** The field constraint [ge=0.0, le=1.0]. *)
Definition in_unit (c : float) : bool := leb f0_0 c && leb c f1_0.

End Float.

Abbreviation float := Float.float.

(** ** Python values, exceptions and effects *)

(** The values [json.loads] can return. *)
Inductive pyvalue :=
| PNone
| PBool (b : bool)
| PInt (n : Z)
| PFloat (f : float)
| PStr (s : pystr)
| PList (l : list pyvalue)
| PDict (d : gmap pystr pyvalue).

(** The exception classes the pipeline can meet; all of them derive from
    [Exception].  [JSONDecodeError] is a subclass of [ValueError], but a
    handler for [JSONDecodeError] does not catch a plain [ValueError]. *)
Inductive exn :=
| JSONDecodeError
| ValueError
| TypeError
| AttributeError
| IndexError
| OverflowError
| ValidationError
| ProviderError (what : pystr)
| HTTPException (status_code : Z) (detail : pystr).

Inductive outcome (A : Type) :=
| Ok (a : A)
| Raise (e : exn).
Arguments Ok {A} a.
Arguments Raise {A} e.

Record NewsAnalysisRequest := {
  req_symbol : pystr;
  news_items : list pystr
}.

Record NewsAnalysisResponse := {
  symbol : pystr;
  sentiment : pystr;
  reason : pystr;
  confidence_score : float
}.

(** The request sent by [openai_client.chat.completions.create]. *)
Record ChatRequest := {
  model : pystr;
  messages : list (pystr * pystr);
  max_tokens : Z;
  temperature : float
}.

(** What [create] answers: the [message.content] of each element of
    [response.choices] ([None] is a choice without content), or the
    exception the client library raised. *)
Definition ChatResponse := list (option pystr).

Record Client := { create : ChatRequest -> outcome ChatResponse }.

(** The [logger] calls of the source, by call site, with the values their
    messages interpolate. *)
Inductive log_record :=
| MockAnalyze (sym : pystr) (count : nat)
| LLMFailed (e : exn)
| RequestReceived (sym : pystr) (count : nat)
| AnalysisDone (r : NewsAnalysisResponse)
| RequestFailed (e : exn).

Inductive level := INFO | ERROR.

Inductive event :=
| Logged (lvl : level) (r : log_record)
| ProviderCall (req : ChatRequest).

(** A computation: the events it performed, in order, and how it ended. *)
Definition M (A : Type) : Type := list event * outcome A.

#[export] Instance M_ret : MRet M := fun A a => ([], Ok a).

#[export] Instance M_bind : MBind M := fun A B f m =>
  match m with
  | (tr, Ok a) => let '(tr', r) := f a in (tr ++ tr', r)
  | (tr, Raise e) => (tr, Raise e)
  end.

Definition lift {A} (o : outcome A) : M A := ([], o).
Definition raise {A} (e : exn) : M A := ([], Raise e).
Definition emit (ev : event) : M unit := ([ev], Ok tt).
Definition logger_info (r : log_record) : M unit := emit (Logged INFO r).
Definition logger_error (r : log_record) : M unit := emit (Logged ERROR r).

(** [try: body except <catches> as e: handler e] *)
Definition try_except {A} (body : M A) (catches : exn -> bool)
    (handler : exn -> M A) : M A :=
  match body with
  | (tr, Ok a) => (tr, Ok a)
  | (tr, Raise e) =>
    if catches e then let '(tr', r) := handler e in (tr ++ tr', r)
    else (tr, Raise e)
  end.

(** [except Exception] *)
Definition is_Exception (e : exn) : bool := true.

(** [except json.JSONDecodeError] *)
Definition is_JSONDecodeError (e : exn) : bool :=
  match e with JSONDecodeError => true | _ => false end.

(** [except HTTPException] *)
Definition is_HTTPException (e : exn) : bool :=
  match e with HTTPException _ _ => true | _ => false end.

(** ** The Python runtime

    The library behaviour the service relies on and does not define. *)
Record Runtime := {
  (** [str.lower] *)
  str_lower : pystr -> pystr;
  (** [json.loads] on a [str] *)
  json_loads : pystr -> outcome pyvalue;
  (** [float(s)] on a [str]; [None] is ValueError *)
  float_of_str : pystr -> option float;
  (** [int(s)] on a [str]; [None] is ValueError *)
  int_of_str : pystr -> option Z;
  (** [os.getenv(name)] *)
  getenv : pystr -> option pystr;
  (** what a pydantic [str] field makes of a value that is not a [str]:
      [None] is a validation error *)
  str_of_other : pyvalue -> option pystr;
  (** [str(e)] of an exception *)
  exn_str : exn -> pystr
}.

(** ** The service *)

Section Service.

Context (rt : Runtime).

Definition nl : pystr := [10%N].

(** [len(x)] *)
Definition len {A} (l : list A) : Z := Z.of_nat (length l).

(** [not s] for a string or a list: true exactly for the empty one. *)
Definition py_not {A} (l : list A) : bool :=
  match l with [] => true | _ => false end.

(** [d.get(key, default)]; a value that is not a [dict] has no [get]. *)
Definition py_get (v : pyvalue) (key : pystr) (dflt : pyvalue) : outcome pyvalue :=
  match v with
  | PDict d => Ok (default dflt (d !! key))
  | _ => Raise AttributeError
  end.

(** [float(n)] on an [int], with CPython's range check. *)
Definition of_int_checked (n : Z) : outcome float :=
  match Float.of_int n with
  | S754_infinity _ => Raise OverflowError
  | f => Ok f
  end.

(** [float(v)] *)
Definition py_float (v : pyvalue) : outcome float :=
  match v with
  | PFloat f => Ok f
  | PInt n => of_int_checked n
  | PBool b => Ok (if b then Float.f1_0 else Float.f0_0)
  | PStr s =>
    match float_of_str rt s with
    | Some f => Ok f
    | None => Raise ValueError
    end
  | PNone | PList _ | PDict _ => Raise TypeError
  end.

(** Validation of a [str] field of a pydantic model. *)
Definition validate_str (v : pyvalue) : outcome pystr :=
  match v with
  | PStr s => Ok s
  | _ =>
    match str_of_other rt v with
    | Some s => Ok s
    | None => Raise ValidationError
    end
  end.

(** The constructor of the response model: three [str] fields and a
    [float] field with [ge=0.0, le=1.0]. *)
Definition NewsAnalysisResponse_init (sym sent rsn : pyvalue) (conf : float)
    : outcome NewsAnalysisResponse :=
  match validate_str sym, validate_str sent, validate_str rsn with
  | Ok s, Ok se, Ok r =>
    if Float.in_unit conf
    then Ok {| symbol := s; sentiment := se; reason := r; confidence_score := conf |}
    else Raise ValidationError
  | _, _, _ => Raise ValidationError
  end.

(** *** mock_analyze_news *)

Definition positive_keywords : list pystr :=
  [u "涨"; u "上涨"; u "利好"; u "买入"; u "推荐";
   u "增长"; u "收益"; u "创新"; u "突破"; u "强劲"].

Definition negative_keywords : list pystr :=
  [u "跌"; u "下跌"; u "利空"; u "卖出"; u "警告";
   u "亏损"; u "风险"; u "危机"; u "衰退"; u "疲软"].

(** The three accumulators of the scan. *)
Record counters := {
  sentiment_score : Z;
  positive_count : Z;
  negative_count : Z
}.

Definition scan_positive (item_lower : pystr) (st : counters) (keyword : pystr)
    : counters :=
  if py_in keyword item_lower
  then {| sentiment_score := sentiment_score st + 1;
          positive_count := positive_count st + 1;
          negative_count := negative_count st |}
  else st.

Definition scan_negative (item_lower : pystr) (st : counters) (keyword : pystr)
    : counters :=
  if py_in keyword item_lower
  then {| sentiment_score := sentiment_score st - 1;
          positive_count := positive_count st;
          negative_count := negative_count st + 1 |}
  else st.

(** The body of [for item in news_items]. *)
Definition scan_item (st : counters) (item : pystr) : counters :=
  let item_lower := str_lower rt item in
  let st := fold_left (scan_positive item_lower) positive_keywords st in
  fold_left (scan_negative item_lower) negative_keywords st.

Definition scan_news (items : list pystr) : counters :=
  fold_left scan_item items
    {| sentiment_score := 0; positive_count := 0; negative_count := 0 |}.

(** [0.6 + count * 0.1], capped by [min(0.9, _)].  The product converts
    [count] to a double first; [count] is at most ten times the number of
    news items, far below the range where that conversion overflows. *)
Definition signal_confidence (count : Z) : float :=
  Float.py_min Float.f0_9
    (Float.add Float.f0_6 (Float.mul (Float.of_int count) Float.f0_1)).

Definition positive_reason (count : Z) : pystr :=
  u "基于" ++ str_of_int count ++ u "个正面信号的分析结果".

Definition negative_reason (count : Z) : pystr :=
  u "基于" ++ str_of_int count ++ u "个负面信号的分析结果".

Definition neutral_reason : pystr := u "未发现明确的正面或负面信号".

(** The [if]/[elif]/[else] that picks sentiment, confidence and reason. *)
Definition decide_sentiment (st : counters) : pystr * float * pystr :=
  if 0 <? sentiment_score st then
    (u "Positive", signal_confidence (positive_count st),
     positive_reason (positive_count st))
  else if sentiment_score st <? 0 then
    (u "Negative", signal_confidence (negative_count st),
     negative_reason (negative_count st))
  else
    (u "Neutral", Float.f0_5, neutral_reason).

Definition mock_analyze_news (sym : pystr) (items : list pystr)
    : M NewsAnalysisResponse :=
  logger_info (MockAnalyze sym (length items));;
  let '(sent, conf, rsn) := decide_sentiment (scan_news items) in
  lift (NewsAnalysisResponse_init (PStr sym) (PStr sent) (PStr rsn) conf).

(** *** real_analyze_news *)

Definition build_prompt (sym : pystr) (items : list pystr) : pystr :=
  let news_text := join nl (map (fun item => u "- " ++ item) items) in
  nl ++
  u "请分析以下关于股票 " ++ sym ++ u " 的新闻，并给出情绪分析结果。" ++ nl ++
  nl ++
  u "新闻内容：" ++ nl ++
  news_text ++ nl ++
  nl ++
  u "请从以下角度进行分析：" ++ nl ++
  u "1. 对股票价格的潜在影响" ++ nl ++
  u "2. 市场情绪倾向" ++ nl ++
  u "3. 投资建议倾向" ++ nl ++
  nl ++
  u "请以JSON格式返回结果，包含以下字段：" ++ nl ++
  u "- sentiment: " ++ dquote ++ u "Positive" ++ dquote ++ u ", " ++
    dquote ++ u "Negative" ++ dquote ++ u ", 或 " ++
    dquote ++ u "Neutral" ++ dquote ++ nl ++
  u "- reason: 详细的分析原因" ++ nl ++
  u "- confidence_score: 置信度分数（0.0-1.0）" ++ nl ++
  nl ++
  u "分析要客观、专业，基于新闻内容的事实进行判断。" ++ nl.

Definition system_prompt : pystr :=
  u "你是一个专业的金融分析师，擅长分析新闻对股票价格的影响。".

(** [int(os.getenv("MAX_TOKENS", 1000))] *)
Definition env_max_tokens : outcome Z :=
  match getenv rt (u "MAX_TOKENS") with
  | None => Ok 1000
  | Some s =>
    match int_of_str rt s with
    | Some n => Ok n
    | None => Raise ValueError
    end
  end.

(** [float(os.getenv("TEMPERATURE", 0.7))] *)
Definition env_temperature : outcome float :=
  match getenv rt (u "TEMPERATURE") with
  | None => Ok Float.f0_7
  | Some s =>
    match float_of_str rt s with
    | Some f => Ok f
    | None => Raise ValueError
    end
  end.

(** The call [openai_client.chat.completions.create(...)]: the arguments
    are evaluated from left to right, then the request goes out. *)
Definition call_provider (client : Client) (prompt : pystr) : M ChatResponse :=
  let mdl := default (u "gpt-3.5-turbo") (getenv rt (u "DEFAULT_MODEL")) in
  let msgs := [(u "system", system_prompt); (u "user", prompt)] in
  mt ← lift env_max_tokens;
  temp ← lift env_temperature;
  let req := {| model := mdl; messages := msgs;
                max_tokens := mt; temperature := temp |} in
  emit (ProviderCall req);;
  lift (create client req).

(** [response.choices[0].message.content.strip()] *)
Definition response_content (response : ChatResponse) : outcome pystr :=
  match response with
  | [] => Raise IndexError
  | None :: _ => Raise AttributeError
  | Some c :: _ => Ok (strip c)
  end.

Definition default_reason : pystr := u "基于LLM分析的结果".

(** The body of the inner [try]. *)
Definition parse_structured (sym content : pystr) : M NewsAnalysisResponse :=
  result ← lift (json_loads rt content);
  sent ← lift (py_get result (u "sentiment") (PStr (u "Neutral")));
  rsn ← lift (py_get result (u "reason") (PStr default_reason));
  cs ← lift (py_get result (u "confidence_score") (PFloat Float.f0_7));
  conf ← lift (py_float cs);
  lift (NewsAnalysisResponse_init (PStr sym) sent rsn conf).

Definition loose_sentiment (content : pystr) : pystr :=
  if py_in (u "positive") (str_lower rt content) then u "Positive"
  else if py_in (u "negative") (str_lower rt content) then u "Negative"
  else u "Neutral".

Definition loose_reason (content : pystr) : pystr :=
  if 200 <? len content then slice_to 200 content ++ u "..." else content.

(** The handler of [except json.JSONDecodeError]. *)
Definition parse_loose (sym content : pystr) : M NewsAnalysisResponse :=
  lift (NewsAnalysisResponse_init (PStr sym) (PStr (loose_sentiment content))
          (PStr (loose_reason content)) Float.f0_8).

Definition parse_response (sym content : pystr) : M NewsAnalysisResponse :=
  try_except (parse_structured sym content) is_JSONDecodeError
    (fun _ => parse_loose sym content).

(** The body of the outer [try]. *)
Definition provider_path (client : Client) (sym : pystr) (items : list pystr)
    : M NewsAnalysisResponse :=
  let prompt := build_prompt sym items in
  response ← call_provider client prompt;
  content ← lift (response_content response);
  parse_response sym content.

Definition real_analyze_news (openai_client : option Client) (sym : pystr)
    (items : list pystr) : M NewsAnalysisResponse :=
  match openai_client with
  | None => mock_analyze_news sym items
  | Some client =>
    try_except (provider_path client sym items) is_Exception
      (fun e => logger_error (LLMFailed e);; mock_analyze_news sym items)
  end.

(** *** analyze_news *)

Definition analyze_news (openai_client : option Client)
    (request : NewsAnalysisRequest) : M NewsAnalysisResponse :=
  try_except
    (logger_info (RequestReceived (req_symbol request)
                    (length (news_items request)));;
     (if py_not (req_symbol request)
      then raise (HTTPException 400 (u "股票代码不能为空"))
      else mret tt);;
     (if py_not (news_items request)
      then raise (HTTPException 400 (u "新闻列表不能为空"))
      else mret tt);;
     result ← real_analyze_news openai_client (req_symbol request)
                (news_items request);
     logger_info (AnalysisDone result);;
     mret result)
    is_Exception
    (fun e =>
       if is_HTTPException e then raise e
       else
         logger_error (RequestFailed e);;
         raise (HTTPException 500 (u "内部服务器错误: " ++ exn_str rt e))).

End Service.

(** ** A reference runtime

    An executable instance of [Runtime], used to run the service on
    concrete requests: ASCII case folding, a JSON reader for the documents
    [json.loads] accepts (RFC 8259 documents and the constants [NaN],
    [Infinity] and [-Infinity]), decimal numerals, an empty process
    environment, and a [str] field that refuses anything but a [str]. *)

Module Ref.

Definition lower_char (c : N) : N :=
  if ((65 <=? c) && (c <=? 90))%N then (c + 32)%N else c.

(** [str.lower] on text whose cased characters are ASCII letters. *)
Definition lower (s : pystr) : pystr := map lower_char s.

Definition is_digit (c : N) : bool := ((48 <=? c) && (c <=? 57))%N.

Definition digit_val (c : N) : Z := Z.of_N c - 48.

(** The longest run of ASCII digits at the head of [s], and the rest. *)
Fixpoint span_digits (s : pystr) : pystr * pystr :=
  match s with
  | c :: r =>
    if is_digit c then let '(ds, r') := span_digits r in (c :: ds, r')
    else ([], s)
  | [] => ([], [])
  end.

Definition digits_val (ds : pystr) : Z :=
  fold_left (fun acc c => 10 * acc + digit_val c) ds 0.

(** The double nearest to [m / d] for positive integers [m] and [d]. *)
Definition div_round (neg : bool) (m d : Z) : float :=
  let '(q, e, l) := SFdiv_core_binary Float.prec Float.emax m 0 d 0 in
  binary_round_aux Float.prec Float.emax neg q e l.

(** The double nearest to [(-1)^neg * m * 10^e]. *)
Definition of_decimal (neg : bool) (m e : Z) : float :=
  if m =? 0 then S754_zero neg
  else if 0 <=? e then
    binary_normalize Float.prec Float.emax
      (if neg then - (m * 10 ^ e) else m * 10 ^ e) 0 false
  else div_round neg m (10 ^ (- e)).

(** An optional exponent part [[eE][+-]?digits]. *)
Definition scan_exponent (s : pystr) : option Z * pystr :=
  match s with
  | c :: r =>
    if ((c =? 101) || (c =? 69))%N then
      let '(neg, r1) :=
        match r with
        | 45%N :: r' => (true, r')
        | 43%N :: r' => (false, r')
        | _ => (false, r)
        end in
      match span_digits r1 with
      | ([], _) => (None, s)
      | (ds, r2) => (Some (if neg then - digits_val ds else digits_val ds), r2)
      end
    else (None, s)
  | [] => (None, s)
  end.

(** An optional fraction part [.digits]. *)
Definition scan_fraction (s : pystr) : option pystr * pystr :=
  match s with
  | 46%N :: r =>
    match span_digits r with
    | ([], _) => (None, s)
    | (ds, r') => (Some ds, r')
    end
  | _ => (None, s)
  end.

(** A JSON number after its sign: an [int] when it has neither fraction
    nor exponent, a [float] otherwise. *)
Definition scan_number (neg : bool) (s : pystr) : option (pyvalue * pystr) :=
  match span_digits s with
  | ([], _) => None
  | (ds, r) =>
    let '(ip, r0) :=
      match ds with
      | 48%N :: _ :: _ => ([48%N], drop 1 s)
      | _ => (ds, r)
      end in
    let '(frac, r1) := scan_fraction r0 in
    let '(ex, r2) := scan_exponent r1 in
    match frac, ex with
    | None, None =>
      Some (PInt (if neg then - digits_val ip else digits_val ip), r2)
    | _, _ =>
      let fd := default [] frac in
      Some (PFloat (of_decimal neg (digits_val (ip ++ fd))
                      (default 0 ex - len fd)), r2)
    end
  end.

Definition hex_val (c : N) : option N :=
  if is_digit c then Some (c - 48)%N
  else if ((97 <=? c) && (c <=? 102))%N then Some (c - 87)%N
  else if ((65 <=? c) && (c <=? 70))%N then Some (c - 55)%N
  else None.

(** Four hexadecimal digits of a [\u] escape. *)
Definition scan_hex4 (s : pystr) : option (N * pystr) :=
  match s with
  | a :: b :: c :: d :: r =>
    match hex_val a, hex_val b, hex_val c, hex_val d with
    | Some x, Some y, Some z, Some w =>
      Some ((x * 4096 + y * 256 + z * 16 + w)%N, r)
    | _, _, _, _ => None
    end
  | _ => None
  end.

Definition simple_escape (c : N) : option N :=
  match c with
  | 34%N => Some 34%N | 92%N => Some 92%N | 47%N => Some 47%N
  | 98%N => Some 8%N | 102%N => Some 12%N | 110%N => Some 10%N
  | 114%N => Some 13%N | 116%N => Some 9%N
  | _ => None
  end.

(** The body of a JSON string, after the opening quote, up to and
    including the closing one; control characters are refused. *)
Fixpoint scan_string (fuel : nat) (s acc : pystr) : option (pystr * pystr) :=
  match fuel with
  | O => None
  | S fuel' =>
    match s with
    | [] => None
    | 34%N :: r => Some (reverse acc, r)
    | 92%N :: 117%N :: r =>
      match scan_hex4 r with
      | None => None
      | Some (hi, r1) =>
        let pair :=
          if ((55296 <=? hi) && (hi <=? 56319))%N then
            match r1 with
            | 92%N :: 117%N :: r2 =>
              match scan_hex4 r2 with
              | Some (lo, r3) =>
                if ((56320 <=? lo) && (lo <=? 57343))%N
                then Some ((65536 + (hi - 55296) * 1024 + (lo - 56320))%N, r3)
                else None
              | None => None
              end
            | _ => None
            end
          else None in
        match pair with
        | Some (cp, r3) => scan_string fuel' r3 (cp :: acc)
        | None => scan_string fuel' r1 (hi :: acc)
        end
      end
    | 92%N :: c :: r =>
      match simple_escape c with
      | Some x => scan_string fuel' r (x :: acc)
      | None => None
      end
    | c :: r =>
      if (c <? 32)%N then None else scan_string fuel' r (c :: acc)
    end
  end.

Definition json_ws (c : N) : bool :=
  ((c =? 32) || (c =? 9) || (c =? 10) || (c =? 13))%N.

Fixpoint skip_ws (s : pystr) : pystr :=
  match s with
  | c :: r => if json_ws c then skip_ws r else s
  | [] => []
  end.

(** [strip_prefix p s] is the rest of [s] after [p]. *)
Definition strip_prefix (p s : pystr) : option pystr :=
  if startswith p s then Some (drop (length p) s) else None.

(** One JSON value at the head of [s] (no leading white space), the
    elements of an array after its bracket, and the members of an object
    after its brace; a later duplicate key replaces an earlier one. *)
Fixpoint scan_value (fuel : nat) (s : pystr) : option (pyvalue * pystr) :=
  match fuel with
  | O => None
  | S fuel' =>
    match s with
    | 34%N :: r =>
      '(str, r') ← scan_string (length r) r []; Some (PStr str, r')
    | 123%N :: r =>
      match skip_ws r with
      | 125%N :: r' => Some (PDict ∅, r')
      | r' => '(d, r'') ← scan_members fuel' r' ∅; Some (PDict d, r'')
      end
    | 91%N :: r =>
      match skip_ws r with
      | 93%N :: r' => Some (PList [], r')
      | r' => '(l, r'') ← scan_elements fuel' r' []; Some (PList l, r'')
      end
    | 45%N :: r =>
      match strip_prefix (u "Infinity") r with
      | Some r' => Some (PFloat (S754_infinity true), r')
      | None => scan_number true r
      end
    | _ =>
      match strip_prefix (u "null") s, strip_prefix (u "true") s,
            strip_prefix (u "false") s, strip_prefix (u "NaN") s,
            strip_prefix (u "Infinity") s with
      | Some r, _, _, _, _ => Some (PNone, r)
      | _, Some r, _, _, _ => Some (PBool true, r)
      | _, _, Some r, _, _ => Some (PBool false, r)
      | _, _, _, Some r, _ => Some (PFloat S754_nan, r)
      | _, _, _, _, Some r => Some (PFloat (S754_infinity false), r)
      | _, _, _, _, _ => scan_number false s
      end
    end
  end
with scan_elements (fuel : nat) (s : pystr) (acc : list pyvalue)
    : option (list pyvalue * pystr) :=
  match fuel with
  | O => None
  | S fuel' =>
    '(v, r) ← scan_value fuel' s;
    match skip_ws r with
    | 44%N :: r' => scan_elements fuel' (skip_ws r') (acc ++ [v])
    | 93%N :: r' => Some (acc ++ [v], r')
    | _ => None
    end
  end
with scan_members (fuel : nat) (s : pystr) (acc : gmap pystr pyvalue)
    : option (gmap pystr pyvalue * pystr) :=
  match fuel with
  | O => None
  | S fuel' =>
    match s with
    | 34%N :: r =>
      '(key, r1) ← scan_string (length r) r [];
      match skip_ws r1 with
      | 58%N :: r2 =>
        '(v, r3) ← scan_value fuel' (skip_ws r2);
        match skip_ws r3 with
        | 44%N :: r4 => scan_members fuel' (skip_ws r4) (<[key := v]> acc)
        | 125%N :: r4 => Some (<[key := v]> acc, r4)
        | _ => None
        end
      | _ => None
      end
    | _ => None
    end
  end.

(** [json.loads(s)]: one value between optional white space. *)
Definition loads (s : pystr) : outcome pyvalue :=
  match scan_value (2 * length s + 2) (skip_ws s) with
  | Some (v, r) =>
    match skip_ws r with
    | [] => Ok v
    | _ => Raise JSONDecodeError
    end
  | None => Raise JSONDecodeError
  end.

(** A run of digits with single underscores allowed between them, as
    [int] and [float] read it, without the underscores; and the rest. *)
Fixpoint span_digitpart (after_digit : bool) (s : pystr) : pystr * pystr :=
  match s with
  | c :: r =>
    if is_digit c then
      let '(ds, r') := span_digitpart true r in (c :: ds, r')
    else if (c =? 95)%N && after_digit then
      match r with
      | c' :: _ =>
        if is_digit c' then span_digitpart false r else ([], s)
      | [] => ([], s)
      end
    else ([], s)
  | [] => ([], [])
  end.

(** The sign of a numeral and what follows it. *)
Definition split_sign (s : pystr) : bool * pystr :=
  match s with
  | 45%N :: r => (true, r)
  | 43%N :: r => (false, r)
  | _ => (false, s)
  end.

(** [float(s)] on ASCII text: an optionally signed decimal numeral,
    [inf], [infinity] or [nan] in any case, between optional white space. *)
Definition to_float (s : pystr) : option float :=
  let '(neg, r) := split_sign (strip s) in
  let w := lower r in
  if bool_decide (w = u "inf") || bool_decide (w = u "infinity")
  then Some (S754_infinity neg)
  else if bool_decide (w = u "nan") then Some S754_nan
  else
    let '(ip, r0) := span_digitpart false r in
    let '(fd, r1) :=
      match r0 with
      | 46%N :: r' => span_digitpart false r'
      | _ => ([], r0)
      end in
    let '(ex, r2) :=
      match r1 with
      | c :: r' =>
        if ((c =? 101) || (c =? 69))%N then
          let '(eneg, r'') := split_sign r' in
          match span_digitpart false r'' with
          | ([], _) => (None, r1)
          | (ds, r3) =>
            (Some (if eneg then - digits_val ds else digits_val ds), r3)
          end
        else (None, r1)
      | [] => (None, r1)
      end in
    match ip ++ fd, r2 with
    | _ :: _, [] =>
      Some (of_decimal neg (digits_val (ip ++ fd)) (default 0 ex - len fd))
    | _, _ => None
    end.

(** [int(s)] on ASCII text: an optionally signed decimal numeral between
    optional white space. *)
Definition to_int (s : pystr) : option Z :=
  let '(neg, r) := split_sign (strip s) in
  match span_digitpart false r with
  | ((_ :: _) as ds, []) => Some (if neg then - digits_val ds else digits_val ds)
  | _ => None
  end.

(** [str(e)]: the message the exception carries. *)
Definition message (e : exn) : pystr :=
  match e with
  | ProviderError what => what
  | HTTPException _ detail => detail
  | _ => []
  end.

Definition runtime : Runtime := {|
  str_lower := lower;
  json_loads := loads;
  float_of_str := to_float;
  int_of_str := to_int;
  getenv := fun _ => None;
  str_of_other := fun _ => None;
  exn_str := message
|}.

End Ref.

(** ** Specification vocabulary *)

(** [p] occurs in [s]: some text, then [p], then some text. *)
Definition occurs_in (p s : pystr) : Prop := exists l r, s = l ++ p ++ r.

Lemma startswith_spec p s : startswith p s = true <-> exists r, s = p ++ r.
Proof.
  revert s. induction p as [|a p IH]; intros s; simpl.
  - split; [intros _; exists s; reflexivity | reflexivity].
  - destruct s as [|b s]; simpl.
    + split; [discriminate | intros [r Hr]; discriminate].
    + rewrite andb_true_iff, N.eqb_eq, IH. split.
      * intros [-> [r ->]]. exists r. reflexivity.
      * intros [r Hr]. injection Hr as -> ->. split; [reflexivity | exists r; reflexivity].
Qed.

Lemma py_in_spec p s : py_in p s = true <-> occurs_in p s.
Proof.
  unfold occurs_in. induction s as [|b s IH]; simpl.
  - rewrite orb_false_r, startswith_spec. split.
    + intros [r Hr]. exists [], r. exact Hr.
    + intros [l [r Hr]]. destruct l; simpl in Hr; [exists r; exact Hr | discriminate].
  - rewrite orb_true_iff, startswith_spec, IH. split.
    + intros [[r Hr] | [l [r Hr]]].
      * exists [], r. exact Hr.
      * exists (b :: l), r. simpl. rewrite Hr. reflexivity.
    + intros [l [r Hr]]. destruct l as [|c l]; simpl in Hr.
      * left. exists r. exact Hr.
      * right. injection Hr as _ Hr. exists l, r. exact Hr.
Qed.

#[export] Instance occurs_in_dec p s : Decision (occurs_in p s).
Proof.
  destruct (py_in p s) eqn:H.
  - left. apply py_in_spec, H.
  - right. intros Hs. apply py_in_spec in Hs. congruence.
Defined.

(** [h] added up over the texts. *)
Fixpoint sum_over (h : pystr -> Z) (texts : list pystr) : Z :=
  match texts with
  | [] => 0
  | t :: rest => h t + sum_over h rest
  end.

Section Vocabulary.

Context (rt : Runtime).

(** How many of the keywords occur in the lower-cased text. *)
Definition keyword_hits (keywords : list pystr) (text : pystr) : Z :=
  len (filter (fun k => occurs_in k (str_lower rt text)) keywords).

(** The hits of all texts, added up. *)
Definition total_hits (keywords : list pystr) (texts : list pystr) : Z :=
  sum_over (keyword_hits keywords) texts.

(** The response the heuristic builds from its final counters. *)
Definition heuristic_response (sym : pystr) (items : list pystr)
    : NewsAnalysisResponse :=
  let '(sent, conf, rsn) := decide_sentiment (scan_news rt items) in
  {| symbol := sym; sentiment := sent; reason := rsn; confidence_score := conf |}.

(** What the structured reading makes of a JSON object. *)
Definition from_object (sym : pystr) (d : gmap pystr pyvalue)
    : outcome NewsAnalysisResponse :=
  match py_float rt (default (PFloat Float.f0_7) (d !! u "confidence_score")) with
  | Ok conf =>
    NewsAnalysisResponse_init rt (PStr sym)
      (default (PStr (u "Neutral")) (d !! u "sentiment"))
      (default (PStr default_reason) (d !! u "reason")) conf
  | Raise e => Raise e
  end.

(** A step of the provider path raises [e]: the provider call (with the
    evaluation of its arguments), the reading of the answer's content, or
    the parsing of that content.  Building the prompt cannot raise. *)
Inductive provider_step_raises (client : Client) (sym : pystr)
    (items : list pystr) (e : exn) : Prop :=
| call_raises tr :
    call_provider rt client (build_prompt sym items) = (tr, Raise e) ->
    provider_step_raises client sym items e
| content_raises tr resp :
    call_provider rt client (build_prompt sym items) = (tr, Ok resp) ->
    response_content resp = Raise e ->
    provider_step_raises client sym items e
| parse_raises tr resp content :
    call_provider rt client (build_prompt sym items) = (tr, Ok resp) ->
    response_content resp = Ok content ->
    snd (parse_response rt sym content) = Raise e ->
    provider_step_raises client sym items e.

End Vocabulary.

(** One of the three sentiment labels. *)
Definition is_label (s : pystr) : Prop :=
  s = u "Positive" \/ s = u "Negative" \/ s = u "Neutral".

(** ** Example requests and providers *)

Module Examples.

(** A provider that answers every request with the same text. *)
Definition answering (text : pystr) : Client :=
  {| create := fun _ => Ok [Some text] |}.

(** A provider whose call times out. *)
Definition timing_out : Client :=
  {| create := fun _ => Raise (ProviderError (u "Request timed out.")) |}.

(** [s] between double quotes. *)
Definition quoted (s : pystr) : pystr := dquote ++ s ++ dquote.

(** A JSON object with a sentiment outside the three labels. *)
Definition bullish_doc : pystr :=
  u "{" ++ quoted (u "sentiment") ++ u ": " ++ quoted (u "Bullish") ++ u ", " ++
  quoted (u "reason") ++ u ": " ++ quoted (u "strong quarter") ++ u ", " ++
  quoted (u "confidence_score") ++ u ": 0.9}".



(** A JSON object with an empty reason. *)
Definition terse_doc : pystr :=
  u "{" ++ quoted (u "sentiment") ++ u ": " ++ quoted (u "up") ++ u ", " ++
  quoted (u "reason") ++ u ": " ++ quoted [] ++ u "}".

Definition aapl_items : list pystr := [u "苹果发布新iPhone"; u "科技股上涨"].

Definition report_items : list pystr := [u "公司发布季度报告"].

Definition loss_items : list pystr := [u "公司面临重大亏损风险"].

End Examples.

(** ** Facts about doubles *)

Module FloatFacts.
Import Float.

(** NaN, or a value whose sign bit is clear. *)
Definition sign_clear (f : float) : Prop :=
  match f with
  | S754_nan => True
  | S754_zero s | S754_infinity s | S754_finite s _ _ => s = false
  end.

Lemma round_aux_sign mx ex lx :
  sign_clear (binary_round_aux prec emax false mx ex lx).
Proof.
  unfold binary_round_aux.
  destruct (shr_fexp prec emax mx ex lx) as [mrs e1].
  destruct (shr_fexp prec emax _ e1 loc_Exact) as [mrs2 e2].
  destruct (shr_m mrs2); simpl; trivial.
  destruct (e2 <=? emax - prec); simpl; trivial.
Qed.

Lemma round_sign m e : sign_clear (binary_round prec emax false m e).
Proof.
  unfold binary_round.
  destruct (shl_align m e _) as [mz ez]. apply round_aux_sign.
Qed.

Lemma of_int_sign n : 0 <= n -> sign_clear (of_int n).
Proof.
  intros Hn. unfold of_int, binary_normalize.
  destruct n as [|p|p]; simpl; trivial; [apply round_sign | lia].
Qed.

Lemma mul_sign x m e :
  sign_clear x -> sign_clear (mul x (S754_finite false m e)).
Proof.
  unfold mul. destruct x as [s|s| |s mx ex]; simpl; intros H; subst; simpl; trivial.
  apply round_aux_sign.
Qed.

Lemma add_sign m e y :
  sign_clear y -> sign_clear (add (S754_finite false m e) y).
Proof.
  unfold add. destruct y as [s|s| |s my ey]; simpl; intros H; subst; simpl; trivial.
  apply round_sign.
Qed.

Lemma below_cap_in_unit x :
  sign_clear x -> ltb x f0_9 = true -> in_unit x = true.
Proof.
  destruct x as [s|s| |s m e]; cbn [sign_clear]; intros H; subst;
    try (intros _; reflexivity); try (intros Hlt; discriminate Hlt).
  unfold ltb, SFltb, in_unit, leb, SFleb, f0_9, f0_0, f1_0.
  cbn [SFcompare andb].
  destruct (Z.compare_spec e (-53)) as [He|He|He]; try discriminate.
  - intros _. subst e. reflexivity.
  - intros _. destruct (Z.compare_spec e (-52)) as [He'|He'|He']; (reflexivity || lia).
Qed.

Lemma signal_confidence_in_unit n :
  0 <= n -> in_unit (signal_confidence n) = true.
Proof.
  intros Hn. unfold signal_confidence, py_min.
  destruct (ltb _ f0_9) eqn:Hlt; [|reflexivity].
  apply below_cap_in_unit; [|exact Hlt].
  apply add_sign, mul_sign, of_int_sign, Hn.
Qed.
End FloatFacts.

(** ** The heuristic classifier *)

Section Heuristic.

Context (rt : Runtime).

Lemma filter_hit (k t : pystr) (kws : list pystr) :
  len (filter (fun k => occurs_in k t) (k :: kws)) =
  (if py_in k t then 1 else 0) + len (filter (fun k => occurs_in k t) kws).
Proof.
  rewrite filter_cons. unfold len.
  destruct (py_in k t) eqn:E.
  - rewrite decide_True by (apply py_in_spec, E). simpl length. lia.
  - rewrite decide_False; [lia |].
    intros H. apply py_in_spec in H. congruence.
Qed.

Lemma hits_nonneg (t : pystr) (kws : list pystr) :
  0 <= len (filter (fun k => occurs_in k t) kws).
Proof. unfold len. lia. Qed.

Lemma scan_positive_fold t kws st :
  fold_left (scan_positive t) kws st =
  {| sentiment_score := sentiment_score st + len (filter (fun k => occurs_in k t) kws);
     positive_count := positive_count st + len (filter (fun k => occurs_in k t) kws);
     negative_count := negative_count st |}.
Proof.
  revert st. induction kws as [|k kws IH]; intros [sc pc nc].
  - unfold len. simpl. f_equal; lia.
  - cbn [fold_left]. rewrite IH, filter_hit. unfold scan_positive.
    destruct (py_in k t); simpl; f_equal; lia.
Qed.

Lemma scan_negative_fold t kws st :
  fold_left (scan_negative t) kws st =
  {| sentiment_score := sentiment_score st - len (filter (fun k => occurs_in k t) kws);
     positive_count := positive_count st;
     negative_count := negative_count st + len (filter (fun k => occurs_in k t) kws) |}.
Proof.
  revert st. induction kws as [|k kws IH]; intros [sc pc nc].
  - unfold len. simpl. f_equal; lia.
  - cbn [fold_left]. rewrite IH, filter_hit. unfold scan_negative.
    destruct (py_in k t); simpl; f_equal; lia.
Qed.

Lemma scan_item_eq st item :
  scan_item rt st item =
  {| sentiment_score := sentiment_score st + keyword_hits rt positive_keywords item
                        - keyword_hits rt negative_keywords item;
     positive_count := positive_count st + keyword_hits rt positive_keywords item;
     negative_count := negative_count st + keyword_hits rt negative_keywords item |}.
Proof.
  unfold scan_item, keyword_hits.
  rewrite scan_positive_fold, scan_negative_fold. reflexivity.
Qed.

(** A fold whose step adds [hp item] and [hn item] to the counters ends
    with their sums added. *)
Lemma fold_counters (step : counters -> pystr -> counters) (hp hn : pystr -> Z) :
  (forall st item,
      step st item =
      {| sentiment_score := sentiment_score st + hp item - hn item;
         positive_count := positive_count st + hp item;
         negative_count := negative_count st + hn item |}) ->
  forall items st,
    fold_left step items st =
    {| sentiment_score := sentiment_score st + sum_over hp items - sum_over hn items;
       positive_count := positive_count st + sum_over hp items;
       negative_count := negative_count st + sum_over hn items |}.
Proof.
  intros Hstep. induction items as [|item items IH]; intros [sc pc nc].
  - cbn. f_equal; lia.
  - cbn [fold_left sum_over]. rewrite IH, Hstep. cbn. f_equal; lia.
Qed.

Lemma scan_fold_eq items st :
  fold_left (scan_item rt) items st =
  {| sentiment_score := sentiment_score st + total_hits rt positive_keywords items
                        - total_hits rt negative_keywords items;
     positive_count := positive_count st + total_hits rt positive_keywords items;
     negative_count := negative_count st + total_hits rt negative_keywords items |}.
Proof. apply fold_counters, scan_item_eq. Qed.

Lemma sum_over_nonneg h items : (forall t, 0 <= h t) -> 0 <= sum_over h items.
Proof.
  intros Hh. induction items as [|t items IH]; cbn; [lia |].
  specialize (Hh t). lia.
Qed.

Lemma total_hits_nonneg kws items : 0 <= total_hits rt kws items.
Proof.
  apply sum_over_nonneg. intros t. apply hits_nonneg.
Qed.

Lemma scan_news_eq items :
  scan_news rt items =
  {| sentiment_score := total_hits rt positive_keywords items
                        - total_hits rt negative_keywords items;
     positive_count := total_hits rt positive_keywords items;
     negative_count := total_hits rt negative_keywords items |}.
Proof.
  unfold scan_news. rewrite scan_fold_eq.
  cbn [sentiment_score positive_count negative_count]. f_equal.
Qed.

Lemma counts_nonneg items :
  0 <= positive_count (scan_news rt items) /\
  0 <= negative_count (scan_news rt items).
Proof.
  rewrite scan_news_eq. cbn [positive_count negative_count].
  split; apply total_hits_nonneg.
Qed.

(** The confidence the decision picks always passes the range check. *)
Lemma decide_sentiment_in_unit items :
  Float.in_unit (decide_sentiment (scan_news rt items)).1.2 = true.
Proof.
  destruct (counts_nonneg items) as [Hp Hn]. unfold decide_sentiment.
  destruct (0 <? _); [apply FloatFacts.signal_confidence_in_unit, Hp |].
  destruct (_ <? 0); [apply FloatFacts.signal_confidence_in_unit, Hn |].
  reflexivity.
Qed.

(** The heuristic logs once and returns its response; it never raises. *)
Lemma mock_analyze_news_ok sym items :
  mock_analyze_news rt sym items =
  ([Logged INFO (MockAnalyze sym (length items))],
   Ok (heuristic_response rt sym items)).
Proof.
  unfold mock_analyze_news, heuristic_response.
  pose proof (decide_sentiment_in_unit items) as Hu.
  destruct (decide_sentiment (scan_news rt items)) as [[sent conf] rsn].
  cbn [fst snd] in Hu. unfold NewsAnalysisResponse_init, validate_str, lift.
  rewrite Hu. reflexivity.
Qed.

End Heuristic.

(** C4: for every list of texts, the scan ends with [positive_count] and
    [negative_count] equal to the number of keyword occurrences, counted
    text by text as the keywords of the fixed positive (negative) list that
    occur as substrings of the lower-cased text, and with
    [sentiment_score = positive_count - negative_count]. *)
Theorem scan_counts_keyword_hits (rt : Runtime) (items : list pystr) :
  positive_count (scan_news rt items) = total_hits rt positive_keywords items /\
  negative_count (scan_news rt items) = total_hits rt negative_keywords items /\
  sentiment_score (scan_news rt items) =
    positive_count (scan_news rt items) - negative_count (scan_news rt items).
Proof.
  rewrite scan_news_eq. cbn [sentiment_score positive_count negative_count].
  repeat split.
Qed.

(** C3: for every symbol and text list the heuristic returns a response for
    the symbol that follows the decision policy on the accumulated
    counters: a positive score gives Positive with confidence
    [min(0.9, 0.6 + positive_count * 0.1)] and a reason quoting
    [positive_count]; a negative score gives Negative with confidence
    [min(0.9, 0.6 + negative_count * 0.1)] and a reason quoting
    [negative_count]; a zero score gives Neutral with confidence 0.5 and
    the fixed reason. *)
Theorem heuristic_decision_policy (rt : Runtime) (sym : pystr) (items : list pystr) :
  exists r,
    snd (mock_analyze_news rt sym items) = Ok r /\ symbol r = sym /\
    (0 < sentiment_score (scan_news rt items) ->
       sentiment r = u "Positive" /\
       confidence_score r =
         Float.py_min Float.f0_9
           (Float.add Float.f0_6
              (Float.mul (Float.of_int (positive_count (scan_news rt items)))
                 Float.f0_1)) /\
       reason r = u "基于" ++ str_of_int (positive_count (scan_news rt items))
                    ++ u "个正面信号的分析结果") /\
    (sentiment_score (scan_news rt items) < 0 ->
       sentiment r = u "Negative" /\
       confidence_score r =
         Float.py_min Float.f0_9
           (Float.add Float.f0_6
              (Float.mul (Float.of_int (negative_count (scan_news rt items)))
                 Float.f0_1)) /\
       reason r = u "基于" ++ str_of_int (negative_count (scan_news rt items))
                    ++ u "个负面信号的分析结果") /\
    (sentiment_score (scan_news rt items) = 0 ->
       sentiment r = u "Neutral" /\
       confidence_score r = Float.f0_5 /\
       reason r = u "未发现明确的正面或负面信号").
Proof.
  exists (heuristic_response rt sym items).
  rewrite mock_analyze_news_ok. unfold heuristic_response, decide_sentiment.
  split; [reflexivity |]. split.
  { destruct (0 <? _); [| destruct (_ <? 0)]; reflexivity. }
  destruct (0 <? sentiment_score (scan_news rt items)) eqn:Hpos;
    [| destruct (sentiment_score (scan_news rt items) <? 0) eqn:Hneg];
    cbn [symbol sentiment reason confidence_score];
    (split; [| split]); intros H;
    first [ lia | split; [| split]; reflexivity ].
Qed.

(** ** The orchestrator *)

Section Orchestrator.

Context (rt : Runtime).

Lemma bind_lift {A B} (o : outcome A) (f : A -> M B) :
  (lift o ≫= f) = match o with Ok a => f a | Raise e => ([], Raise e) end.
Proof.
  destruct o as [a|e]; unfold lift, mbind, M_bind; [| reflexivity].
  destruct (f a) as [tr r]. reflexivity.
Qed.

Lemma bind_ok {A B} (tr : list event) (a : A) (f : A -> M B) :
  ((tr, Ok a) ≫= f) = (tr ++ (f a).1, (f a).2).
Proof. unfold mbind, M_bind. destruct (f a) as [tr' r]. reflexivity. Qed.

Lemma bind_raise {A B} (tr : list event) (e : exn) (f : A -> M B) :
  ((tr, Raise e) ≫= f) = (tr, Raise e).
Proof. reflexivity. Qed.

Lemma in_unit_f0_8 : Float.in_unit Float.f0_8 = true.
Proof. vm_compute. reflexivity. Qed.

Lemma init_in_unit a b c conf r :
  NewsAnalysisResponse_init rt a b c conf = Ok r ->
  Float.in_unit (confidence_score r) = true.
Proof.
  unfold NewsAnalysisResponse_init.
  destruct (validate_str rt a); [| discriminate].
  destruct (validate_str rt b); [| discriminate].
  destruct (validate_str rt c); [| discriminate].
  destruct (Float.in_unit conf) eqn:Hu; [| discriminate].
  intros [= <-]. exact Hu.
Qed.

Lemma init_of_strings sym sent rsn conf :
  Float.in_unit conf = true ->
  NewsAnalysisResponse_init rt (PStr sym) (PStr sent) (PStr rsn) conf =
  Ok {| symbol := sym; sentiment := sent; reason := rsn; confidence_score := conf |}.
Proof.
  intros Hu. unfold NewsAnalysisResponse_init, validate_str. rewrite Hu. reflexivity.
Qed.


Lemma init_never_json_error a b c conf :
  NewsAnalysisResponse_init rt a b c conf <> Raise JSONDecodeError.
Proof.
  unfold NewsAnalysisResponse_init.
  destruct (validate_str rt a); [| discriminate].
  destruct (validate_str rt b); [| discriminate].
  destruct (validate_str rt c); [| discriminate].
  destruct (Float.in_unit conf); discriminate.
Qed.

Lemma py_float_never_json_error v : py_float rt v <> Raise JSONDecodeError.
Proof.
  destruct v as [| b | n | f | s | l | d]; cbn [py_float]; try discriminate.
  - unfold of_int_checked. destruct (Float.of_int n); discriminate.
  - destruct (float_of_str rt s); discriminate.
Qed.

(** The loose reading always succeeds. *)
Lemma parse_loose_ok sym content :
  parse_loose rt sym content =
  ([], Ok {| symbol := sym; sentiment := loose_sentiment rt content;
             reason := loose_reason content; confidence_score := Float.f0_8 |}).
Proof.
  unfold parse_loose, lift. rewrite init_of_strings by apply in_unit_f0_8.
  reflexivity.
Qed.

Lemma from_object_never_json_error sym d : from_object rt sym d <> Raise JSONDecodeError.
Proof.
  unfold from_object.
  destruct (py_float rt _) as [conf|e] eqn:Hf.
  - apply init_never_json_error.
  - intros [= ->]. exact (py_float_never_json_error _ Hf).
Qed.

Lemma parse_structured_object sym content d :
  json_loads rt content = Ok (PDict d) ->
  parse_structured rt sym content = ([], from_object rt sym d).
Proof.
  intros Hj. unfold parse_structured, from_object.
  rewrite Hj, bind_lift. cbn [py_get]. rewrite !bind_lift.
  destruct (py_float rt _); [unfold lift |]; reflexivity.
Qed.

(** The four ways the parsing step can go. *)
Lemma parse_response_object sym content d :
  json_loads rt content = Ok (PDict d) ->
  parse_response rt sym content = ([], from_object rt sym d).
Proof.
  intros Hj. unfold parse_response. rewrite (parse_structured_object _ _ _ Hj).
  unfold try_except.
  destruct (from_object rt sym d) as [r|e] eqn:Ho; [reflexivity |].
  destruct e; try reflexivity.
  exfalso. exact (from_object_never_json_error _ _ Ho).
Qed.

Lemma parse_response_not_object sym content v :
  json_loads rt content = Ok v ->
  (forall d, v <> PDict d) ->
  parse_response rt sym content = ([], Raise AttributeError).
Proof.
  intros Hj Hv. unfold parse_response, parse_structured.
  rewrite Hj, bind_lift.
  destruct v; try reflexivity. exfalso. exact (Hv _ eq_refl).
Qed.

Lemma parse_response_not_json sym content :
  json_loads rt content = Raise JSONDecodeError ->
  parse_response rt sym content = parse_loose rt sym content.
Proof.
  intros Hj. unfold parse_response, parse_structured.
  rewrite Hj, bind_lift. unfold try_except. cbn [is_JSONDecodeError].
  destruct (parse_loose rt sym content). reflexivity.
Qed.

Lemma parse_response_loads_raises sym content e :
  json_loads rt content = Raise e ->
  e <> JSONDecodeError ->
  parse_response rt sym content = ([], Raise e).
Proof.
  intros Hj He. unfold parse_response, parse_structured.
  rewrite Hj, bind_lift. unfold try_except.
  destruct e; try reflexivity. congruence.
Qed.

(** The parsing step performs no effect, and a response it returns passed
    the range check. *)
Lemma parse_response_pure sym content :
  (parse_response rt sym content).1 = [].
Proof.
  destruct (json_loads rt content) as [v|e] eqn:Hj.
  - destruct v;
      try (rewrite (parse_response_not_object _ _ _ Hj); [reflexivity | discriminate]).
    rewrite (parse_response_object _ _ _ Hj). reflexivity.
  - destruct e;
      try (rewrite (parse_response_loads_raises _ _ _ Hj); [reflexivity | discriminate]).
    rewrite (parse_response_not_json _ _ Hj), parse_loose_ok. reflexivity.
Qed.

Lemma parse_response_in_unit sym content tr r :
  parse_response rt sym content = (tr, Ok r) ->
  Float.in_unit (confidence_score r) = true.
Proof.
  destruct (json_loads rt content) as [v|e] eqn:Hj.
  - destruct v;
      try (rewrite (parse_response_not_object _ _ _ Hj); [discriminate | discriminate]).
    rewrite (parse_response_object _ _ _ Hj). unfold from_object.
    destruct (py_float rt _); [| discriminate].
    intros [= _ H]. exact (init_in_unit _ _ _ _ _ H).
  - destruct e;
      try (rewrite (parse_response_loads_raises _ _ _ Hj); [discriminate | discriminate]).
    rewrite (parse_response_not_json _ _ Hj), parse_loose_ok.
    intros [= _ <-]. apply in_unit_f0_8.
Qed.

(** The provider path once the provider has answered with [content]. *)
Lemma provider_path_after_content client sym items tr resp content :
  call_provider rt client (build_prompt sym items) = (tr, Ok resp) ->
  response_content resp = Ok content ->
  provider_path rt client sym items =
  (tr, (parse_response rt sym content).2).
Proof.
  intros Hc Hr. unfold provider_path. rewrite Hc, bind_ok, Hr, bind_lift.
  pose proof (parse_response_pure sym content) as Hp.
  destruct (parse_response rt sym content) as [tr' o]. cbn [fst snd] in *.
  subst tr'. rewrite app_nil_r. reflexivity.
Qed.

(** The outer handler: a failure of the provider path is logged and the
    heuristic answers instead. *)
Lemma real_on_failure client sym items tr e :
  provider_path rt client sym items = (tr, Raise e) ->
  real_analyze_news rt (Some client) sym items =
  (tr ++ [Logged ERROR (LLMFailed e); Logged INFO (MockAnalyze sym (length items))],
   Ok (heuristic_response rt sym items)).
Proof.
  intros Hp. unfold real_analyze_news, try_except. rewrite Hp.
  cbn [is_Exception]. unfold logger_error, emit. rewrite bind_ok.
  rewrite mock_analyze_news_ok. reflexivity.
Qed.

Lemma real_on_success client sym items tr r :
  provider_path rt client sym items = (tr, Ok r) ->
  real_analyze_news rt (Some client) sym items = (tr, Ok r).
Proof.
  intros Hp. unfold real_analyze_news, try_except. rewrite Hp. reflexivity.
Qed.

(** The orchestrator always returns a response. *)
Lemma real_analyze_news_returns openai_client sym items :
  exists tr r, real_analyze_news rt openai_client sym items = (tr, Ok r).
Proof.
  destruct openai_client as [client|].
  - destruct (provider_path rt client sym items) as [tr [r|e]] eqn:Hp.
    + exists tr, r. apply real_on_success, Hp.
    + eexists _, _. apply real_on_failure, Hp.
  - eexists _, _. apply mock_analyze_news_ok.
Qed.

(** The provider path returns a response only from the parsing step. *)
Lemma provider_path_in_unit client sym items tr r :
  provider_path rt client sym items = (tr, Ok r) ->
  Float.in_unit (confidence_score r) = true.
Proof.
  unfold provider_path.
  destruct (call_provider rt client (build_prompt sym items)) as [tr0 [resp|e]];
    [| rewrite bind_raise; discriminate].
  rewrite bind_ok, bind_lift.
  destruct (response_content resp) as [content|e]; [| discriminate].
  destruct (parse_response rt sym content) as [tr' [r'|e]] eqn:Hp; [| discriminate].
  intros [= _ <-]. exact (parse_response_in_unit _ _ _ _ Hp).
Qed.

End Orchestrator.

(** ** Properties of the orchestrator *)

(** C1: without a provider handle the orchestrator is the heuristic: for
    every symbol and text list, [real_analyze_news] performs the same
    effects and returns the same result as [mock_analyze_news]. *)
Theorem no_provider_is_heuristic (rt : Runtime) (sym : pystr) (items : list pystr) :
  real_analyze_news rt None sym items = mock_analyze_news rt sym items.
Proof. reflexivity. Qed.

Lemma provider_step_raises_path (rt : Runtime) client sym items e :
  provider_step_raises rt client sym items e ->
  exists tr, provider_path rt client sym items = (tr, Raise e).
Proof.
  intros [tr Hc | tr resp Hc Hr | tr resp content Hc Hr Hp]; exists tr.
  - unfold provider_path. rewrite Hc. apply bind_raise.
  - unfold provider_path. rewrite Hc, bind_ok, Hr, bind_lift.
    cbn [fst snd]. rewrite app_nil_r. reflexivity.
  - rewrite (provider_path_after_content rt _ _ _ _ _ _ Hc Hr), Hp. reflexivity.
Qed.

(** C2: when a step of the provider path raises (the provider call, the
    reading of its answer, the parsing of the content), the orchestrator
    returns what the heuristic returns on the same input, and that is a
    response, not an exception. *)
Theorem provider_error_falls_back (rt : Runtime) (client : Client)
    (sym : pystr) (items : list pystr) (e : exn) :
  provider_step_raises rt client sym items e ->
  snd (real_analyze_news rt (Some client) sym items) =
    snd (mock_analyze_news rt sym items) /\
  exists r, snd (real_analyze_news rt (Some client) sym items) = Ok r.
Proof.
  intros Hs. destruct (provider_step_raises_path rt _ _ _ _ Hs) as [tr Hp].
  rewrite (real_on_failure rt _ _ _ _ _ Hp), mock_analyze_news_ok.
  split; [reflexivity | eexists; reflexivity].
Qed.

Lemma provider_error_falls_back_witness :
  provider_step_raises Ref.runtime Examples.timing_out (u "AAPL")
    Examples.report_items (ProviderError (u "Request timed out.")) /\
  snd (real_analyze_news Ref.runtime (Some Examples.timing_out) (u "AAPL")
         Examples.report_items) =
    snd (mock_analyze_news Ref.runtime (u "AAPL") Examples.report_items).
Proof.
  assert (H : provider_step_raises Ref.runtime Examples.timing_out (u "AAPL")
                Examples.report_items (ProviderError (u "Request timed out."))).
  { eapply call_raises. vm_compute. reflexivity. }
  split; [exact H |].
  exact (proj1 (provider_error_falls_back Ref.runtime Examples.timing_out
                  (u "AAPL") Examples.report_items _ H)).
Defined.

(** The result of the orchestrator once the provider has answered. *)
Lemma real_after_content (rt : Runtime) client sym items tr resp content :
  call_provider rt client (build_prompt sym items) = (tr, Ok resp) ->
  response_content resp = Ok content ->
  real_analyze_news rt (Some client) sym items =
  match snd (parse_response rt sym content) with
  | Ok r => (tr, Ok r)
  | Raise e =>
    (tr ++ [Logged ERROR (LLMFailed e);
            Logged INFO (MockAnalyze sym (length items))],
     Ok (heuristic_response rt sym items))
  end.
Proof.
  intros Hc Hr.
  pose proof (provider_path_after_content rt _ _ _ _ _ _ Hc Hr) as Hp.
  destruct (snd (parse_response rt sym content)) as [r|e].
  - apply real_on_success, Hp.
  - apply real_on_failure, Hp.
Qed.




(** The result of the orchestrator when the content is not JSON. *)
Lemma real_loose (rt : Runtime) client sym items tr resp content :
  call_provider rt client (build_prompt sym items) = (tr, Ok resp) ->
  response_content resp = Ok content ->
  json_loads rt content = Raise JSONDecodeError ->
  real_analyze_news rt (Some client) sym items =
  (tr, Ok {| symbol := sym; sentiment := loose_sentiment rt content;
             reason := loose_reason content; confidence_score := Float.f0_8 |}).
Proof.
  intros Hc Hr Hj. rewrite (real_after_content rt _ _ _ _ _ _ Hc Hr).
  rewrite (parse_response_not_json rt _ _ Hj), parse_loose_ok. reflexivity.
Qed.

Lemma py_in_false p s : py_in p s = false <-> ~ occurs_in p s.
Proof.
  rewrite <- py_in_spec. destruct (py_in p s); split; congruence.
Qed.

(** C6, amended: let the content be the provider's text after [strip()].
    When [json.loads] raises JSONDecodeError on the content (any other
    failure of the structured reading ends in the heuristic's response
    instead), the orchestrator returns a response whose sentiment is
    Positive if the lower-cased content contains "positive", otherwise
    Negative if it contains "negative", and Neutral if it contains
    neither; whose reason is the content itself when it has at most 200
    characters and its first 200 characters followed by "..." when it has
    more; and whose confidence is 0.8. *)
Theorem loose_text_result (rt : Runtime) (client : Client) (sym : pystr)
    (items : list pystr) (tr : list event) (resp : ChatResponse)
    (content : pystr) :
  call_provider rt client (build_prompt sym items) = (tr, Ok resp) ->
  response_content resp = Ok content ->
  json_loads rt content = Raise JSONDecodeError ->
  exists r,
    real_analyze_news rt (Some client) sym items = (tr, Ok r) /\
    symbol r = sym /\
    (occurs_in (u "positive") (str_lower rt content) ->
       sentiment r = u "Positive") /\
    (~ occurs_in (u "positive") (str_lower rt content) ->
     occurs_in (u "negative") (str_lower rt content) ->
       sentiment r = u "Negative") /\
    (~ occurs_in (u "positive") (str_lower rt content) ->
     ~ occurs_in (u "negative") (str_lower rt content) ->
       sentiment r = u "Neutral") /\
    (len content <= 200 -> reason r = content) /\
    (200 < len content -> reason r = take 200 content ++ u "...") /\
    confidence_score r = Float.f0_8.
Proof.
  intros Hc Hr Hj. eexists. split; [exact (real_loose rt _ _ _ _ _ _ Hc Hr Hj) |].
  cbn [symbol sentiment reason confidence_score].
  unfold loose_sentiment, loose_reason, slice_to.
  repeat split.
  - intros Hp. apply py_in_spec in Hp. rewrite Hp. reflexivity.
  - intros Hp Hn. apply py_in_false in Hp. apply py_in_spec in Hn.
    rewrite Hp, Hn. reflexivity.
  - intros Hp Hn. apply py_in_false in Hp. apply py_in_false in Hn.
    rewrite Hp, Hn. reflexivity.
  - intros Hl. destruct (200 <? len content) eqn:E; [lia | reflexivity].
  - intros Hl. destruct (200 <? len content) eqn:E; [reflexivity | lia].
Qed.

Lemma loose_text_result_witness :
  json_loads Ref.runtime (u "Overall NEGATIVE outlook") = Raise JSONDecodeError /\
  exists r,
    snd (real_analyze_news Ref.runtime
           (Some (Examples.answering (u " Overall NEGATIVE outlook ")))
           (u "AAPL") Examples.report_items) = Ok r /\
    sentiment r = u "Negative" /\
    reason r = u "Overall NEGATIVE outlook" /\
    confidence_score r = Float.f0_8.
Proof.
  assert (Hj : json_loads Ref.runtime (u "Overall NEGATIVE outlook") =
               Raise JSONDecodeError) by (vm_compute; reflexivity).
  split; [exact Hj |].
  eassert (Hc : call_provider Ref.runtime
                  (Examples.answering (u " Overall NEGATIVE outlook "))
                  (build_prompt (u "AAPL") Examples.report_items) = (_, Ok _)).
  { vm_compute. reflexivity. }
  assert (Hr : response_content [Some (u " Overall NEGATIVE outlook ")] =
               Ok (u "Overall NEGATIVE outlook")) by (vm_compute; reflexivity).
  destruct (loose_text_result Ref.runtime _ _ _ _ _ _ Hc Hr Hj)
    as [r (Heq & _ & _ & Hneg & _ & Hshort & _ & Hconf)].
  exists r. rewrite Heq. split; [reflexivity |].
  split; [| split; [| exact Hconf]].
  - apply Hneg.
    + apply py_in_false. vm_compute. reflexivity.
    + apply py_in_spec. vm_compute. reflexivity.
  - apply Hshort. vm_compute. discriminate.
Defined.

(** C6 as stated fails in two ways.  The reason is cut from the stripped
    text, not from the raw one: a raw answer of 200 letters and a trailing
    space has 201 characters, yet the reason is the 200 letters without
    "...".  And a structured reading can fail without a JSONDecodeError:
    the JSON string "negative outlook" parses, has no [get], and the
    answer is the heuristic's (Neutral, 0.5), not Negative with 0.8. *)
Lemma loose_text_not_raw_text :
  (len (replicate 200 120%N ++ [32%N]) = 201 /\
   exists r,
     snd (real_analyze_news Ref.runtime
            (Some (Examples.answering (replicate 200 120%N ++ [32%N])))
            (u "AAPL") Examples.report_items) = Ok r /\
     confidence_score r = Float.f0_8 /\
     reason r = replicate 200 120%N /\
     reason r <> take 200 (replicate 200 120%N ++ [32%N]) ++ u "..." /\
     reason r <> replicate 200 120%N ++ [32%N]) /\
  (json_loads Ref.runtime (dquote ++ u "negative outlook" ++ dquote) =
     Ok (PStr (u "negative outlook")) /\
   py_in (u "negative")
     (str_lower Ref.runtime (dquote ++ u "negative outlook" ++ dquote)) = true /\
   exists r,
     snd (real_analyze_news Ref.runtime
            (Some (Examples.answering (dquote ++ u "negative outlook" ++ dquote)))
            (u "AAPL") Examples.report_items) = Ok r /\
     sentiment r = u "Neutral" /\ sentiment r <> u "Negative" /\
     confidence_score r = Float.f0_5 /\ confidence_score r <> Float.f0_8).
Proof.
  split.
  - split; [vm_compute; reflexivity |].
    eexists. split; [vm_compute; reflexivity |].
    cbn [confidence_score reason].
    split; [reflexivity |]. split; [vm_compute; reflexivity |].
    split; vm_compute; discriminate.
  - split; [vm_compute; reflexivity |]. split; [vm_compute; reflexivity |].
    eexists. split; [vm_compute; reflexivity |].
    cbn [sentiment confidence_score].
    split; [vm_compute; reflexivity |]. split; [vm_compute; discriminate |].
    split; [vm_compute; reflexivity | vm_compute; discriminate].
Qed.

(** C10: when the content is not JSON and its lower-cased text contains
    both "positive" and "negative", the sentiment is Positive. *)
Theorem loose_text_positive_first (rt : Runtime) (client : Client)
    (sym : pystr) (items : list pystr) (tr : list event) (resp : ChatResponse)
    (content : pystr) :
  call_provider rt client (build_prompt sym items) = (tr, Ok resp) ->
  response_content resp = Ok content ->
  json_loads rt content = Raise JSONDecodeError ->
  occurs_in (u "positive") (str_lower rt content) ->
  occurs_in (u "negative") (str_lower rt content) ->
  exists r,
    real_analyze_news rt (Some client) sym items = (tr, Ok r) /\
    sentiment r = u "Positive".
Proof.
  intros Hc Hr Hj Hp _. eexists.
  split; [exact (real_loose rt _ _ _ _ _ _ Hc Hr Hj) |].
  cbn [sentiment]. unfold loose_sentiment.
  apply py_in_spec in Hp. rewrite Hp. reflexivity.
Qed.

Lemma loose_text_positive_first_witness :
  (json_loads Ref.runtime (u "Negative for shorts, positive for holders") =
     Raise JSONDecodeError /\
   occurs_in (u "positive")
     (str_lower Ref.runtime (u "Negative for shorts, positive for holders")) /\
   occurs_in (u "negative")
     (str_lower Ref.runtime (u "Negative for shorts, positive for holders"))) /\
  exists r,
    snd (real_analyze_news Ref.runtime
           (Some (Examples.answering (u "Negative for shorts, positive for holders")))
           (u "AAPL") Examples.report_items) = Ok r /\
    sentiment r = u "Positive".
Proof.
  assert (Hj : json_loads Ref.runtime (u "Negative for shorts, positive for holders") =
               Raise JSONDecodeError) by (vm_compute; reflexivity).
  assert (Hp : occurs_in (u "positive")
     (str_lower Ref.runtime (u "Negative for shorts, positive for holders"))).
  { apply py_in_spec. vm_compute. reflexivity. }
  assert (Hn : occurs_in (u "negative")
     (str_lower Ref.runtime (u "Negative for shorts, positive for holders"))).
  { apply py_in_spec. vm_compute. reflexivity. }
  split; [repeat split; assumption |].
  eassert (Hc : call_provider Ref.runtime
                  (Examples.answering (u "Negative for shorts, positive for holders"))
                  (build_prompt (u "AAPL") Examples.report_items) = (_, Ok _)).
  { vm_compute. reflexivity. }
  assert (Hr : response_content [Some (u "Negative for shorts, positive for holders")] =
               Ok (u "Negative for shorts, positive for holders"))
    by (vm_compute; reflexivity).
  destruct (loose_text_positive_first Ref.runtime _ _ _ _ _ _ Hc Hr Hj Hp Hn)
    as [r [Heq Hs]].
  exists r. rewrite Heq. split; [reflexivity | exact Hs].
Defined.

(** ** The result invariant *)

Section Invariant.

Context (rt : Runtime).

Lemma heuristic_response_fields sym items :
  heuristic_response rt sym items =
  {| symbol := sym;
     sentiment := (decide_sentiment (scan_news rt items)).1.1;
     reason := (decide_sentiment (scan_news rt items)).2;
     confidence_score := (decide_sentiment (scan_news rt items)).1.2 |}.
Proof.
  unfold heuristic_response.
  destruct (decide_sentiment (scan_news rt items)) as [[sent conf] rsn].
  reflexivity.
Qed.

Lemma heuristic_response_in_unit sym items :
  Float.in_unit (confidence_score (heuristic_response rt sym items)) = true.
Proof.
  rewrite heuristic_response_fields. cbn [confidence_score].
  apply decide_sentiment_in_unit.
Qed.

Lemma decide_sentiment_label st : is_label (decide_sentiment st).1.1.
Proof.
  unfold decide_sentiment, is_label.
  destruct (0 <? _); [| destruct (_ <? 0)]; cbn [fst]; auto.
Qed.

Lemma signal_prefix_nonempty : u "基于" = [22522%N; 20110%N].
Proof. vm_compute. reflexivity. Qed.

Lemma decide_sentiment_reason st : (decide_sentiment st).2 <> [].
Proof.
  unfold decide_sentiment, positive_reason, negative_reason.
  destruct (0 <? _); [| destruct (_ <? 0)]; cbn [snd];
    try (rewrite signal_prefix_nonempty; cbn [app]; discriminate).
  vm_compute. discriminate.
Qed.

Lemma loose_sentiment_label content : is_label (loose_sentiment rt content).
Proof.
  unfold loose_sentiment, is_label.
  destruct (py_in (u "positive") _); [| destruct (py_in (u "negative") _)]; auto.
Qed.

Lemma loose_reason_nonempty content : content <> [] -> loose_reason content <> [].
Proof.
  intros Hc. unfold loose_reason. destruct (200 <? len content); [| exact Hc].
  intros H. apply app_eq_nil in H as [_ H]. vm_compute in H. discriminate.
Qed.

Lemma real_in_unit openai_client sym items tr r :
  real_analyze_news rt openai_client sym items = (tr, Ok r) ->
  Float.in_unit (confidence_score r) = true.
Proof.
  destruct openai_client as [client|].
  - destruct (provider_path rt client sym items) as [tr' [r'|e]] eqn:Hp.
    + rewrite (real_on_success rt _ _ _ _ _ Hp). intros [= _ <-].
      exact (provider_path_in_unit rt _ _ _ _ _ Hp).
    + rewrite (real_on_failure rt _ _ _ _ _ Hp). intros [= _ <-].
      apply heuristic_response_in_unit.
  - cbn [real_analyze_news]. rewrite mock_analyze_news_ok. intros [= _ <-].
    apply heuristic_response_in_unit.
Qed.

End Invariant.

(** C7, amended: every response the orchestrator returns, on any path, has
    its confidence within [0, 1].  On the heuristic path the sentiment is
    one of the three labels and the reason is not empty.  On the loose-text
    path the sentiment is one of the three labels, and the reason is not
    empty when the content is not.  (On the structured path sentiment and
    reason are the provider's strings, whatever they are.) *)
Theorem response_invariant (rt : Runtime) (sym : pystr) (items : list pystr) :
  (forall openai_client tr r,
      real_analyze_news rt openai_client sym items = (tr, Ok r) ->
      Float.leb Float.f0_0 (confidence_score r) = true /\
      Float.leb (confidence_score r) Float.f1_0 = true) /\
  (forall r,
      snd (mock_analyze_news rt sym items) = Ok r ->
      is_label (sentiment r) /\ reason r <> []) /\
  (forall content r,
      json_loads rt content = Raise JSONDecodeError ->
      snd (parse_response rt sym content) = Ok r ->
      is_label (sentiment r) /\ (content <> [] -> reason r <> [])).
Proof.
  split; [| split].
  - intros oc tr r H. apply andb_true_iff. exact (real_in_unit rt _ _ _ _ _ H).
  - intros r. rewrite mock_analyze_news_ok, heuristic_response_fields.
    intros [= <-]. cbn [sentiment reason].
    split; [apply decide_sentiment_label | apply decide_sentiment_reason].
  - intros content r Hj. rewrite (parse_response_not_json rt _ _ Hj), parse_loose_ok.
    intros [= <-]. cbn [sentiment reason].
    split; [apply loose_sentiment_label | apply loose_reason_nonempty].
Qed.

(** C7 as stated fails on both provider paths: a provider that answers
    with blank text gets a response with an empty reason (loose-text
    path), and a JSON answer with sentiment "up" and an empty reason is
    returned with exactly those (structured path). *)
Lemma provider_paths_break_invariant :
  (exists r,
      snd (real_analyze_news Ref.runtime (Some (Examples.answering (u "  ")))
             (u "AAPL") Examples.report_items) = Ok r /\
      reason r = []) /\
  (exists r,
      snd (real_analyze_news Ref.runtime
             (Some (Examples.answering Examples.terse_doc))
             (u "AAPL") Examples.report_items) = Ok r /\
      reason r = [] /\ sentiment r = u "up" /\ ~ is_label (sentiment r)).
Proof.
  split.
  - eexists. split; [vm_compute; reflexivity | reflexivity].
  - eexists. split; [vm_compute; reflexivity |]. cbn [reason sentiment].
    split; [reflexivity |]. split; [vm_compute; reflexivity |].
    intros [H | [H | H]]; vm_compute in H; discriminate.
Qed.

(** ** The endpoint *)

(** C8: a request with an empty symbol or an empty news list is rejected
    with a 400 error after the request has been logged and before anything
    else happens (no provider call, no heuristic run); and no other
    request makes the endpoint raise. *)
Theorem invalid_request_rejected (rt : Runtime) (openai_client : option Client)
    (request : NewsAnalysisRequest) :
  (req_symbol request = [] \/ news_items request = [] ->
   exists detail,
     analyze_news rt openai_client request =
     ([Logged INFO (RequestReceived (req_symbol request)
                      (length (news_items request)))],
      Raise (HTTPException 400 detail))) /\
  (forall tr e,
      analyze_news rt openai_client request = (tr, Raise e) ->
      req_symbol request = [] \/ news_items request = []).
Proof.
  destruct request as [sym items]. cbn [req_symbol news_items].
  unfold analyze_news. cbn [req_symbol news_items].
  unfold logger_info, emit. rewrite bind_ok. cbn [fst snd].
  destruct sym as [|c sym].
  { split; [| intros; left; reflexivity].
    intros _. eexists. cbn [py_not]. unfold raise. rewrite bind_raise.
    reflexivity. }
  cbn [py_not]. unfold mret at 1 3, M_ret. rewrite bind_ok. cbn [fst snd].
  destruct items as [|item items].
  { split; [| intros; right; reflexivity].
    intros _. eexists. cbn [py_not]. unfold raise. rewrite bind_raise.
    reflexivity. }
  cbn [py_not]. unfold mret at 1 3, M_ret. rewrite bind_ok. cbn [fst snd].
  destruct (real_analyze_news_returns rt openai_client (c :: sym) (item :: items))
    as (tr & r & Hr).
  rewrite Hr, !bind_ok. cbn [fst snd try_except].
  split.
  - intros [H | H]; discriminate.
  - intros tr' e H. discriminate.
Qed.

(** ** The documented example *)

(** C9, amended: on the heuristic path the request for "AAPL" with the two
    example texts yields Positive with confidence 0.8 (0.6 + 2 * 0.1) and
    a reason quoting 2 positive signals: both "涨" and "上涨" occur in the
    second text. *)
Theorem aapl_example_two_signals :
  scan_news Ref.runtime Examples.aapl_items =
    {| sentiment_score := 2; positive_count := 2; negative_count := 0 |} /\
  snd (mock_analyze_news Ref.runtime (u "AAPL") Examples.aapl_items) =
    Ok {| symbol := u "AAPL"; sentiment := u "Positive";
          reason := u "基于2个正面信号的分析结果";
          confidence_score :=
            Float.add Float.f0_6 (Float.mul (Float.of_int 2) Float.f0_1) |} /\
  Float.add Float.f0_6 (Float.mul (Float.of_int 2) Float.f0_1) = Float.f0_8 /\
  py_in (u "涨") (str_lower Ref.runtime (u "科技股上涨")) = true /\
  py_in (u "上涨") (str_lower Ref.runtime (u "科技股上涨")) = true.
Proof.
  split; [| split; [| split; [| split]]]; vm_compute; reflexivity.
Qed.

(** C9 as stated fails: the confidence is not 0.6 + 1 * 0.1 but lies above
    0.75, and the reason does not mention "1". *)
Lemma aapl_example_not_one_signal :
  exists r,
    snd (mock_analyze_news Ref.runtime (u "AAPL") Examples.aapl_items) = Ok r /\
    confidence_score r <>
      Float.add Float.f0_6 (Float.mul (Float.of_int 1) Float.f0_1) /\
    Float.ltb (Float.lit 75 100) (confidence_score r) = true /\
    reason r <> u "基于1个正面信号的分析结果" /\
    py_in (u "1") (reason r) = false.
Proof.
  eexists. split; [vm_compute; reflexivity |]. cbn [confidence_score reason].
  split; [vm_compute; discriminate |]. split; [vm_compute; reflexivity |].
  split; [vm_compute; discriminate | vm_compute; reflexivity].
Qed.

(** ** Further runs of the service *)

(** Two negative keywords, "亏损" and "风险": Negative with confidence 0.8. *)
Example loss_example :
  snd (mock_analyze_news Ref.runtime (u "XYZ") Examples.loss_items) =
  Ok {| symbol := u "XYZ"; sentiment := u "Negative";
        reason := u "基于2个负面信号的分析结果";
        confidence_score := Float.f0_8 |}.
Proof. vm_compute. reflexivity. Qed.

(** No keyword: Neutral with confidence 0.5 and the fixed reason. *)
Example report_example :
  snd (mock_analyze_news Ref.runtime (u "NEU") Examples.report_items) =
  Ok {| symbol := u "NEU"; sentiment := u "Neutral";
        reason := u "未发现明确的正面或负面信号";
        confidence_score := Float.f0_5 |}.
Proof. vm_compute. reflexivity. Qed.

(** A keyword that occurs twice in one text counts once for that text. *)
Example repeated_keyword_example :
  scan_news Ref.runtime [u "利好利好"] =
  {| sentiment_score := 1; positive_count := 1; negative_count := 0 |}.
Proof. vm_compute. reflexivity. Qed.

(** From the fourth signal on, [0.6 + count * 0.1] is at least 1.0 and the
    cap decides; with three signals the sum is the double 0.9 itself. *)
Example cap_example :
  signal_confidence 1 = Float.f0_7 /\ signal_confidence 2 = Float.f0_8 /\
  signal_confidence 3 = Float.f0_9 /\ signal_confidence 4 = Float.f0_9 /\
  signal_confidence 1000 = Float.f0_9.
Proof. repeat split; vm_compute; reflexivity. Qed.

(** An empty news list is refused even when a provider is configured, and
    the provider is not called. *)
Example empty_news_example :
  analyze_news Ref.runtime (Some Examples.timing_out)
    {| req_symbol := u "AAPL"; news_items := [] |} =
  ([Logged INFO (RequestReceived (u "AAPL") 0)],
   Raise (HTTPException 400 (u "新闻列表不能为空"))).
Proof. vm_compute. reflexivity. Qed.

(** A provider time-out on a valid request: the provider is called once,
    the failure is logged, the heuristic runs and its response is
    returned and logged. *)
Example timeout_example :
  exists req r,
    analyze_news Ref.runtime (Some Examples.timing_out)
      {| req_symbol := u "NEU"; news_items := Examples.report_items |} =
    ([Logged INFO (RequestReceived (u "NEU") 1);
      ProviderCall req;
      Logged ERROR (LLMFailed (ProviderError (u "Request timed out.")));
      Logged INFO (MockAnalyze (u "NEU") 1);
      Logged INFO (AnalysisDone r)],
     Ok r) /\
    sentiment r = u "Neutral".
Proof. eexists _, _. split; vm_compute; reflexivity. Qed.

(** * Further properties

    ** The heuristic as a function of its counts *)

Section HeuristicAlgebra.

Context (rt : Runtime).

Lemma sum_over_app h a b : sum_over h (a ++ b) = sum_over h a + sum_over h b.
Proof.
  induction a as [|t a IH]; cbn [app sum_over]; [lia |]. rewrite IH. lia.
Qed.

Lemma sum_over_perm h a b : a ≡ₚ b -> sum_over h a = sum_over h b.
Proof.
  induction 1 as [| t a b _ IH | s t a | a b c _ IH1 _ IH2]; cbn [sum_over]; lia.
Qed.

Lemma sum_over_bound h c items :
  (forall t, 0 <= h t <= c) -> 0 <= sum_over h items <= c * len items.
Proof.
  intros Hh. unfold len.
  induction items as [|t items IH]; cbn [sum_over length]; [lia |].
  specialize (Hh t). lia.
Qed.

Lemma keyword_hits_bound kws t : 0 <= keyword_hits rt kws t <= len kws.
Proof.
  unfold keyword_hits, len.
  pose proof (length_filter (fun k => occurs_in k (str_lower rt t)) kws). lia.
Qed.

Lemma heuristic_response_of_counters sym a b :
  scan_news rt a = scan_news rt b ->
  heuristic_response rt sym a = heuristic_response rt sym b.
Proof. intros H. unfold heuristic_response. rewrite H. reflexivity. Qed.

(** A text in which no keyword occurs leaves the counters as they are. *)
Lemma keyword_hits_none kws t :
  Forall (fun k => ~ occurs_in k (str_lower rt t)) kws ->
  keyword_hits rt kws t = 0.
Proof.
  intros H. unfold keyword_hits, len.
  induction H as [|k kws Hk _ IH]; [reflexivity |].
  rewrite filter_cons, decide_False by exact Hk. exact IH.
Qed.

End HeuristicAlgebra.

(** X1: the order of the news items does not matter to the heuristic: on
    a permutation of the list it logs and returns the same. *)
Theorem heuristic_order_insensitive (rt : Runtime) (sym : pystr)
    (items items' : list pystr) :
  items ≡ₚ items' ->
  mock_analyze_news rt sym items = mock_analyze_news rt sym items'.
Proof.
  intros Hp. rewrite !mock_analyze_news_ok.
  rewrite (Permutation_length Hp).
  rewrite (heuristic_response_of_counters rt sym items items'); [reflexivity |].
  rewrite !scan_news_eq. unfold total_hits.
  rewrite (sum_over_perm _ _ _ Hp), (sum_over_perm (keyword_hits rt negative_keywords) _ _ Hp).
  reflexivity.
Qed.

Lemma heuristic_order_insensitive_witness :
  [u "科技股上涨"; u "公司面临重大亏损风险"] ≡ₚ
  [u "公司面临重大亏损风险"; u "科技股上涨"] /\
  mock_analyze_news Ref.runtime (u "AAPL")
    [u "科技股上涨"; u "公司面临重大亏损风险"] =
  mock_analyze_news Ref.runtime (u "AAPL")
    [u "公司面临重大亏损风险"; u "科技股上涨"].
Proof.
  assert (H : [u "科技股上涨"; u "公司面临重大亏损风险"] ≡ₚ
              [u "公司面临重大亏损风险"; u "科技股上涨"]) by apply perm_swap.
  split; [exact H |].
  exact (heuristic_order_insensitive Ref.runtime (u "AAPL") _ _ H).
Defined.

(** X2: the counters of a concatenated list are the sums of the counters
    of its parts. *)
Theorem scan_news_app (rt : Runtime) (a b : list pystr) :
  sentiment_score (scan_news rt (a ++ b)) =
    sentiment_score (scan_news rt a) + sentiment_score (scan_news rt b) /\
  positive_count (scan_news rt (a ++ b)) =
    positive_count (scan_news rt a) + positive_count (scan_news rt b) /\
  negative_count (scan_news rt (a ++ b)) =
    negative_count (scan_news rt a) + negative_count (scan_news rt b).
Proof.
  rewrite !scan_news_eq. cbn [sentiment_score positive_count negative_count].
  unfold total_hits. rewrite !sum_over_app.
  generalize (sum_over (keyword_hits rt positive_keywords) a)
             (sum_over (keyword_hits rt positive_keywords) b)
             (sum_over (keyword_hits rt negative_keywords) a)
             (sum_over (keyword_hits rt negative_keywords) b).
  intros pa pb na nb. repeat split; lia.
Qed.

(** X3: each text adds at most ten to either count (one per keyword of
    the list), so both counts lie between 0 and ten times the number of
    texts, and the score between minus and plus that bound. *)
Theorem scan_news_bounds (rt : Runtime) (items : list pystr) :
  0 <= positive_count (scan_news rt items) <= 10 * len items /\
  0 <= negative_count (scan_news rt items) <= 10 * len items /\
  - (10 * len items) <= sentiment_score (scan_news rt items) <= 10 * len items.
Proof.
  rewrite scan_news_eq. cbn [sentiment_score positive_count negative_count].
  unfold total_hits.
  pose proof (sum_over_bound (keyword_hits rt positive_keywords) 10 items
                (keyword_hits_bound rt positive_keywords)) as Hp.
  pose proof (sum_over_bound (keyword_hits rt negative_keywords) 10 items
                (keyword_hits_bound rt negative_keywords)) as Hn.
  revert Hp Hn.
  generalize (sum_over (keyword_hits rt positive_keywords) items)
             (sum_over (keyword_hits rt negative_keywords) items).
  intros p n Hp Hn. lia.
Qed.

Lemma py_min_cap x : Float.leb (Float.py_min Float.f0_9 x) Float.f0_9 = true.
Proof.
  unfold Float.py_min. destruct (Float.ltb x Float.f0_9) eqn:Hlt.
  - revert Hlt. unfold Float.ltb, Float.leb, SFltb, SFleb.
    destruct (SFcompare x Float.f0_9) as [[| |]|]; (reflexivity || discriminate).
  - vm_compute. reflexivity.
Qed.

(** X4: the confidence the heuristic reports never exceeds 0.9, whatever
    the number of signals. *)
Theorem heuristic_confidence_capped (rt : Runtime) (sym : pystr)
    (items : list pystr) :
  exists r,
    snd (mock_analyze_news rt sym items) = Ok r /\
    Float.leb (confidence_score r) Float.f0_9 = true.
Proof.
  exists (heuristic_response rt sym items).
  rewrite mock_analyze_news_ok. split; [reflexivity |].
  rewrite heuristic_response_fields. cbn [confidence_score].
  unfold decide_sentiment.
  destruct (0 <? _); [| destruct (_ <? 0)]; cbn [fst snd];
    try apply py_min_cap.
  vm_compute. reflexivity.
Qed.

(** X5: a text in which none of the twenty keywords occurs (an empty text
    in particular) does not change the counters, wherever it stands in the
    list. *)
Theorem scan_news_skips_plain_text (rt : Runtime) (a b : list pystr) (t : pystr) :
  Forall (fun k => ~ occurs_in k (str_lower rt t))
    (positive_keywords ++ negative_keywords) ->
  scan_news rt (a ++ t :: b) = scan_news rt (a ++ b).
Proof.
  intros H. apply Forall_app in H as [Hp Hn].
  rewrite !scan_news_eq. unfold total_hits.
  rewrite !sum_over_app. cbn [sum_over].
  rewrite (keyword_hits_none rt _ _ Hp), (keyword_hits_none rt _ _ Hn).
  f_equal; lia.
Qed.

Lemma scan_news_skips_plain_text_witness :
  Forall (fun k => ~ occurs_in k (str_lower Ref.runtime []))
    (positive_keywords ++ negative_keywords) /\
  scan_news Ref.runtime ([u "科技股上涨"] ++ [] :: [u "公司面临重大亏损风险"]) =
  scan_news Ref.runtime ([u "科技股上涨"] ++ [u "公司面临重大亏损风险"]).
Proof.
  assert (H : Forall (fun k => ~ occurs_in k (str_lower Ref.runtime []))
                (positive_keywords ++ negative_keywords)).
  { apply Forall_forall. intros k Hk. apply py_in_false.
    revert k Hk. apply Forall_forall.
    repeat (apply Forall_cons; split; [vm_compute; reflexivity |]).
    apply Forall_nil_2. }
  split; [exact H |].
  exact (scan_news_skips_plain_text Ref.runtime _ _ _ H).
Defined.

(** ** The provider call *)

(** The number of provider calls in a trace. *)
Fixpoint provider_calls (tr : list event) : nat :=
  match tr with
  | [] => 0
  | ProviderCall _ :: rest => S (provider_calls rest)
  | Logged _ _ :: rest => provider_calls rest
  end.

(** The request [call_provider] sends when its arguments evaluate to
    [mt] and [temp]. *)
Definition chat_request (rt : Runtime) (prompt : pystr) (mt : Z) (temp : float)
    : ChatRequest :=
  {| model := default (u "gpt-3.5-turbo") (getenv rt (u "DEFAULT_MODEL"));
     messages := [(u "system", system_prompt); (u "user", prompt)];
     max_tokens := mt; temperature := temp |}.

Module Scenarios.

(** A process environment that sets MAX_TOKENS to a word. *)
Definition words_for_tokens : Runtime := {|
  str_lower := Ref.lower;
  json_loads := Ref.loads;
  float_of_str := Ref.to_float;
  int_of_str := Ref.to_int;
  getenv := fun name =>
    if bool_decide (name = u "MAX_TOKENS") then Some (u "plenty") else None;
  str_of_other := fun _ => None;
  exn_str := Ref.message
|}.

(** A provider that answers with a JSON string instead of an object. *)
Definition quoted_label : pystr := Examples.quoted (u "Positive").

(** A text of 250 characters that is not JSON. *)
Definition long_text : pystr := replicate 250 120%N.

End Scenarios.

Section ProviderCall.

Context (rt : Runtime).

Lemma provider_calls_app a b :
  provider_calls (a ++ b) = (provider_calls a + provider_calls b)%nat.
Proof.
  induction a as [|[lvl r|req] a IH]; cbn [app provider_calls]; [reflexivity | exact IH |].
  rewrite IH. reflexivity.
Qed.

(** The call either fails on its arguments, before anything is sent, or
    sends one request and ends as the client does. *)
Lemma call_provider_cases client prompt :
  (call_provider rt client prompt = ([], Raise ValueError) /\
   (env_max_tokens rt = Raise ValueError \/ env_temperature rt = Raise ValueError)) \/
  (exists mt temp,
     env_max_tokens rt = Ok mt /\ env_temperature rt = Ok temp /\
     call_provider rt client prompt =
     ([ProviderCall (chat_request rt prompt mt temp)],
      create client (chat_request rt prompt mt temp))).
Proof.
  unfold call_provider.
  assert (Hm : env_max_tokens rt = Raise ValueError \/ exists mt, env_max_tokens rt = Ok mt).
  { unfold env_max_tokens. destruct (getenv rt _); [destruct (int_of_str rt _) |]; eauto. }
  assert (Ht : env_temperature rt = Raise ValueError \/ exists t, env_temperature rt = Ok t).
  { unfold env_temperature. destruct (getenv rt _); [destruct (float_of_str rt _) |]; eauto. }
  destruct Hm as [Hm | [mt Hm]].
  { left. rewrite Hm, bind_lift. auto. }
  destruct Ht as [Ht | [temp Ht]].
  { left. rewrite Hm, bind_lift, Ht, bind_lift. auto. }
  right. exists mt, temp. rewrite Hm, bind_lift, Ht, bind_lift.
  unfold emit. rewrite bind_ok. unfold lift, chat_request. cbn [fst snd app].
  auto.
Qed.

Lemma call_provider_count client prompt :
  (provider_calls (call_provider rt client prompt).1 <= 1)%nat.
Proof.
  destruct (call_provider_cases client prompt) as [[H _] | (mt & temp & _ & _ & H)];
    rewrite H; cbn [fst provider_calls]; lia.
Qed.

Lemma provider_path_trace client sym items :
  (provider_path rt client sym items).1 =
  (call_provider rt client (build_prompt sym items)).1.
Proof.
  unfold provider_path.
  destruct (call_provider rt client (build_prompt sym items)) as [tr [resp|e]];
    [| reflexivity].
  rewrite bind_ok, bind_lift. cbn [fst].
  destruct (response_content resp) as [content|e]; cbn [fst];
    [| apply app_nil_r].
  rewrite parse_response_pure. apply app_nil_r.
Qed.

Lemma init_symbol sym b c conf r :
  NewsAnalysisResponse_init rt (PStr sym) b c conf = Ok r -> symbol r = sym.
Proof.
  unfold NewsAnalysisResponse_init. cbn [validate_str].
  destruct (validate_str rt b); [| discriminate].
  destruct (validate_str rt c); [| discriminate].
  destruct (Float.in_unit conf); [| discriminate].
  intros [= <-]. reflexivity.
Qed.

Lemma parse_response_symbol sym content tr r :
  parse_response rt sym content = (tr, Ok r) -> symbol r = sym.
Proof.
  destruct (json_loads rt content) as [v|e] eqn:Hj.
  - destruct v;
      try (rewrite (parse_response_not_object _ _ _ _ Hj); [discriminate | discriminate]).
    rewrite (parse_response_object _ _ _ _ Hj). unfold from_object.
    destruct (py_float rt _); [| discriminate].
    intros [= _ H]. exact (init_symbol _ _ _ _ _ H).
  - destruct e;
      try (rewrite (parse_response_loads_raises _ _ _ _ Hj); [discriminate | discriminate]).
    rewrite (parse_response_not_json _ _ _ Hj), parse_loose_ok.
    intros [= _ <-]. reflexivity.
Qed.

Lemma provider_path_symbol client sym items tr r :
  provider_path rt client sym items = (tr, Ok r) -> symbol r = sym.
Proof.
  unfold provider_path.
  destruct (call_provider rt client (build_prompt sym items)) as [tr0 [resp|e]];
    [| rewrite bind_raise; discriminate].
  rewrite bind_ok, bind_lift.
  destruct (response_content resp) as [content|e]; [| discriminate].
  destruct (parse_response rt sym content) as [tr' [r'|e]] eqn:Hp; [| discriminate].
  intros [= _ <-]. exact (parse_response_symbol _ _ _ _ Hp).
Qed.

End ProviderCall.

(** X6: on every path the orchestrator returns a response, and the
    response carries the symbol of the request. *)
Theorem response_echoes_symbol (rt : Runtime) (openai_client : option Client)
    (sym : pystr) (items : list pystr) :
  exists tr r,
    real_analyze_news rt openai_client sym items = (tr, Ok r) /\ symbol r = sym.
Proof.
  destruct openai_client as [client|].
  - destruct (provider_path rt client sym items) as [tr [r|e]] eqn:Hp.
    + exists tr, r. split; [apply real_on_success, Hp |].
      exact (provider_path_symbol rt _ _ _ _ _ Hp).
    + eexists _, _. split; [apply real_on_failure, Hp |].
      rewrite heuristic_response_fields. reflexivity.
  - eexists _, _. split; [apply mock_analyze_news_ok |].
    rewrite heuristic_response_fields. reflexivity.
Qed.

(** X7: the orchestrator calls the provider at most once per request (no
    retry after a failure), and never when no provider is configured. *)
Theorem at_most_one_provider_call (rt : Runtime) (openai_client : option Client)
    (sym : pystr) (items : list pystr) :
  (provider_calls (fst (real_analyze_news rt openai_client sym items)) <= 1)%nat /\
  provider_calls (fst (real_analyze_news rt None sym items)) = 0%nat.
Proof.
  split.
  - destruct openai_client as [client|].
    + pose proof (call_provider_count rt client (build_prompt sym items)) as Hc.
      rewrite <- provider_path_trace in Hc.
      destruct (provider_path rt client sym items) as [tr [r|e]] eqn:Hp.
      * rewrite (real_on_success rt _ _ _ _ _ Hp). exact Hc.
      * rewrite (real_on_failure rt _ _ _ _ _ Hp). cbn [fst] in *.
        rewrite provider_calls_app. cbn [provider_calls]. lia.
    + cbn [real_analyze_news]. rewrite mock_analyze_news_ok.
      cbn [fst provider_calls]. lia.
  - cbn [real_analyze_news]. rewrite mock_analyze_news_ok. reflexivity.
Qed.

(** X8: when the provider path succeeds, the orchestrator has sent exactly
    one request, with the system prompt and the prompt built from the
    symbol and the news as its two messages, and has logged nothing. *)
Theorem provider_success_trace (rt : Runtime) (client : Client) (sym : pystr)
    (items : list pystr) (tr : list event) (r : NewsAnalysisResponse) :
  provider_path rt client sym items = (tr, Ok r) ->
  exists req,
    real_analyze_news rt (Some client) sym items = ([ProviderCall req], Ok r) /\
    messages req = [(u "system", system_prompt);
                    (u "user", build_prompt sym items)].
Proof.
  intros Hp. rewrite (real_on_success rt _ _ _ _ _ Hp).
  pose proof (provider_path_trace rt client sym items) as Ht.
  rewrite Hp in Ht. cbn [fst] in Ht.
  destruct (call_provider_cases rt client (build_prompt sym items))
    as [[H _] | (mt & temp & _ & _ & H)].
  - exfalso. unfold provider_path in Hp. rewrite H, bind_raise in Hp. discriminate.
  - rewrite H in Ht. cbn [fst] in Ht. subst tr.
    eexists. split; reflexivity.
Qed.

Lemma provider_success_trace_witness :
  (exists tr r,
     provider_path Ref.runtime (Examples.answering Examples.bullish_doc)
       (u "AAPL") Examples.report_items = (tr, Ok r)) /\
  (exists req r,
     real_analyze_news Ref.runtime (Some (Examples.answering Examples.bullish_doc))
       (u "AAPL") Examples.report_items = ([ProviderCall req], Ok r)).
Proof.
  eassert (Hp : provider_path Ref.runtime (Examples.answering Examples.bullish_doc)
                  (u "AAPL") Examples.report_items = (_, Ok _)).
  { vm_compute. reflexivity. }
  split; [eexists _, _; exact Hp |].
  destruct (provider_success_trace Ref.runtime _ _ _ _ _ Hp) as [req [H _]].
  exists req. eexists. exact H.
Defined.

(** ** The prompt and the request *)

Lemma occurs_in_app_l p s l : occurs_in p s -> occurs_in p (l ++ s).
Proof.
  intros (a & b & ->). exists (l ++ a), b. rewrite <- app_assoc. reflexivity.
Qed.

Lemma occurs_in_app_r p s r : occurs_in p s -> occurs_in p (s ++ r).
Proof.
  intros (a & b & ->). exists a, (b ++ r). rewrite <- !app_assoc. reflexivity.
Qed.

Lemma occurs_in_refl p : occurs_in p p.
Proof. exists [], []. rewrite app_nil_r. reflexivity. Qed.

Lemma join_occurs sep parts p : In p parts -> occurs_in p (join sep parts).
Proof.
  induction parts as [|q parts IH]; intros Hin; [destruct Hin |].
  destruct parts as [|q' parts].
  - destruct Hin as [-> | []]. apply occurs_in_refl.
  - change (join sep (q :: q' :: parts)) with (q ++ sep ++ join sep (q' :: parts)).
    destruct Hin as [-> | Hin].
    + apply occurs_in_app_r, occurs_in_refl.
    + apply occurs_in_app_l, occurs_in_app_l, IH, Hin.
Qed.

(** X9: the prompt carries the symbol and, for every news item, the line
    "- item". *)
Theorem prompt_embeds_request (sym : pystr) (items : list pystr) :
  occurs_in sym (build_prompt sym items) /\
  Forall (fun item => occurs_in (u "- " ++ item) (build_prompt sym items)) items.
Proof.
  split.
  - unfold build_prompt.
    apply occurs_in_app_l, occurs_in_app_l, occurs_in_app_r, occurs_in_refl.
  - apply Forall_forall. intros item Hin. unfold build_prompt.
    do 8 apply occurs_in_app_l. apply occurs_in_app_r.
    apply join_occurs, in_map_iff. exists item.
    split; [reflexivity | apply list_elem_of_In, Hin].
Qed.

(** X10: when none of DEFAULT_MODEL, MAX_TOKENS and TEMPERATURE is set,
    the one request goes out with model "gpt-3.5-turbo", at most 1000
    tokens and temperature 0.7, and the call ends as the client does. *)
Theorem default_chat_request (rt : Runtime) (client : Client) (prompt : pystr) :
  getenv rt (u "DEFAULT_MODEL") = None ->
  getenv rt (u "MAX_TOKENS") = None ->
  getenv rt (u "TEMPERATURE") = None ->
  call_provider rt client prompt =
  ([ProviderCall {| model := u "gpt-3.5-turbo";
                    messages := [(u "system", system_prompt); (u "user", prompt)];
                    max_tokens := 1000; temperature := Float.f0_7 |}],
   create client {| model := u "gpt-3.5-turbo";
                    messages := [(u "system", system_prompt); (u "user", prompt)];
                    max_tokens := 1000; temperature := Float.f0_7 |}).
Proof.
  intros Hm Ht Hte.
  destruct (call_provider_cases rt client prompt)
    as [[_ [H | H]] | (mt & temp & Hmt & Htemp & H)].
  - unfold env_max_tokens in H. rewrite Ht in H. discriminate.
  - unfold env_temperature in H. rewrite Hte in H. discriminate.
  - unfold env_max_tokens in Hmt. rewrite Ht in Hmt. injection Hmt as <-.
    unfold env_temperature in Htemp. rewrite Hte in Htemp. injection Htemp as <-.
    rewrite H. unfold chat_request. rewrite Hm. reflexivity.
Qed.

Lemma default_chat_request_witness :
  getenv Ref.runtime (u "MAX_TOKENS") = None /\
  (call_provider Ref.runtime Examples.timing_out (u "hello")).1 =
  [ProviderCall {| model := u "gpt-3.5-turbo";
                   messages := [(u "system", system_prompt); (u "user", u "hello")];
                   max_tokens := 1000; temperature := Float.f0_7 |}].
Proof.
  split; [reflexivity |].
  rewrite (default_chat_request Ref.runtime Examples.timing_out (u "hello")
             eq_refl eq_refl eq_refl).
  reflexivity.
Defined.

(** X11: when MAX_TOKENS or TEMPERATURE is set to text that [int] or
    [float] refuses, no request is sent at all: the ValueError is logged
    as a provider failure and the heuristic answers. *)
Theorem bad_setting_disables_provider (rt : Runtime) (client : Client)
    (sym : pystr) (items : list pystr) :
  env_max_tokens rt = Raise ValueError \/ env_temperature rt = Raise ValueError ->
  real_analyze_news rt (Some client) sym items =
  ([Logged ERROR (LLMFailed ValueError);
    Logged INFO (MockAnalyze sym (length items))],
   Ok (heuristic_response rt sym items)).
Proof.
  intros Hbad.
  assert (Hc : call_provider rt client (build_prompt sym items) = ([], Raise ValueError)).
  { destruct (call_provider_cases rt client (build_prompt sym items))
      as [[H _] | (mt & temp & Hmt & Htemp & _)]; [exact H |].
    destruct Hbad as [Hb | Hb]; congruence. }
  rewrite (real_on_failure rt client sym items [] ValueError); [reflexivity |].
  unfold provider_path. rewrite Hc. apply bind_raise.
Qed.

Lemma bad_setting_disables_provider_witness :
  env_max_tokens Scenarios.words_for_tokens = Raise ValueError /\
  provider_calls
    (fst (real_analyze_news Scenarios.words_for_tokens
            (Some (Examples.answering Examples.bullish_doc))
            (u "AAPL") Examples.report_items)) = 0%nat.
Proof.
  assert (H : env_max_tokens Scenarios.words_for_tokens = Raise ValueError)
    by (vm_compute; reflexivity).
  split; [exact H |].
  rewrite (bad_setting_disables_provider Scenarios.words_for_tokens
             (Examples.answering Examples.bullish_doc) (u "AAPL")
             Examples.report_items (or_introl H)).
  reflexivity.
Defined.

(** ** Answers that are JSON but not an object, and long answers *)

(** X12: an answer that is valid JSON but not an object (a string, a
    number, a list, null) is not read as loose text: the missing [get]
    is a provider failure and the heuristic answers. *)
Theorem non_object_json_falls_back (rt : Runtime) (client : Client)
    (sym : pystr) (items : list pystr) (tr : list event) (resp : ChatResponse)
    (content : pystr) (v : pyvalue) :
  call_provider rt client (build_prompt sym items) = (tr, Ok resp) ->
  response_content resp = Ok content ->
  json_loads rt content = Ok v ->
  (forall d, v <> PDict d) ->
  real_analyze_news rt (Some client) sym items =
  (tr ++ [Logged ERROR (LLMFailed AttributeError);
          Logged INFO (MockAnalyze sym (length items))],
   Ok (heuristic_response rt sym items)).
Proof.
  intros Hc Hr Hj Hv. rewrite (real_after_content rt _ _ _ _ _ _ Hc Hr).
  rewrite (parse_response_not_object rt _ _ _ Hj Hv). reflexivity.
Qed.

Lemma non_object_json_falls_back_witness :
  (json_loads Ref.runtime Scenarios.quoted_label = Ok (PStr (u "Positive")) /\
   py_in (u "positive") (str_lower Ref.runtime Scenarios.quoted_label) = true) /\
  snd (real_analyze_news Ref.runtime
         (Some (Examples.answering Scenarios.quoted_label))
         (u "NEU") Examples.report_items) =
  Ok (heuristic_response Ref.runtime (u "NEU") Examples.report_items).
Proof.
  assert (Hj : json_loads Ref.runtime Scenarios.quoted_label =
               Ok (PStr (u "Positive"))) by (vm_compute; reflexivity).
  split; [split; [exact Hj | vm_compute; reflexivity] |].
  eassert (Hc : call_provider Ref.runtime
                  (Examples.answering Scenarios.quoted_label)
                  (build_prompt (u "NEU") Examples.report_items) = (_, Ok _)).
  { vm_compute. reflexivity. }
  assert (Hr : response_content [Some Scenarios.quoted_label] =
               Ok Scenarios.quoted_label) by (vm_compute; reflexivity).
  rewrite (non_object_json_falls_back Ref.runtime _ _ _ _ _ _ _ Hc Hr Hj);
    [reflexivity | discriminate].
Defined.

Lemma ellipsis_length : length (u "...") = 3%nat.
Proof. vm_compute. reflexivity. Qed.

(** X13: on the loose-text path the reason has at most 203 characters,
    and exactly 203 when the content has more than 200. *)
Theorem loose_reason_bounded (rt : Runtime) (client : Client) (sym : pystr)
    (items : list pystr) (tr : list event) (resp : ChatResponse)
    (content : pystr) :
  call_provider rt client (build_prompt sym items) = (tr, Ok resp) ->
  response_content resp = Ok content ->
  json_loads rt content = Raise JSONDecodeError ->
  exists r,
    real_analyze_news rt (Some client) sym items = (tr, Ok r) /\
    len (reason r) <= 203 /\
    (200 < len content -> len (reason r) = 203).
Proof.
  intros Hc Hr Hj. eexists.
  split; [exact (real_loose rt _ _ _ _ _ _ Hc Hr Hj) |].
  cbn [reason]. unfold loose_reason, slice_to, len.
  destruct (200 <? Z.of_nat (length content)) eqn:E.
  - rewrite length_app, length_take, ellipsis_length. lia.
  - lia.
Qed.

Lemma loose_reason_bounded_witness :
  (json_loads Ref.runtime Scenarios.long_text = Raise JSONDecodeError /\
   len Scenarios.long_text = 250) /\
  exists r,
    snd (real_analyze_news Ref.runtime (Some (Examples.answering Scenarios.long_text))
           (u "AAPL") Examples.report_items) = Ok r /\
    len (reason r) = 203.
Proof.
  assert (Hj : json_loads Ref.runtime Scenarios.long_text = Raise JSONDecodeError)
    by (vm_compute; reflexivity).
  assert (Hl : len Scenarios.long_text = 250) by (vm_compute; reflexivity).
  split; [split; assumption |].
  eassert (Hc : call_provider Ref.runtime (Examples.answering Scenarios.long_text)
                  (build_prompt (u "AAPL") Examples.report_items) = (_, Ok _)).
  { vm_compute. reflexivity. }
  assert (Hr : response_content [Some Scenarios.long_text] = Ok Scenarios.long_text)
    by (vm_compute; reflexivity).
  destruct (loose_reason_bounded Ref.runtime _ _ _ _ _ _ Hc Hr Hj)
    as [r (Heq & _ & Hlong)].
  exists r. rewrite Heq. split; [reflexivity |]. apply Hlong. rewrite Hl. lia.
Defined.

(** X14: an object that has none of the three fields, whatever else it
    holds, is answered with Neutral, the generic reason and confidence
    0.7. *)
Theorem missing_fields_defaults (rt : Runtime) (client : Client) (sym : pystr)
    (items : list pystr) (tr : list event) (resp : ChatResponse)
    (content : pystr) (d : gmap pystr pyvalue) :
  call_provider rt client (build_prompt sym items) = (tr, Ok resp) ->
  response_content resp = Ok content ->
  json_loads rt content = Ok (PDict d) ->
  d !! u "sentiment" = None ->
  d !! u "reason" = None ->
  d !! u "confidence_score" = None ->
  real_analyze_news rt (Some client) sym items =
  (tr, Ok {| symbol := sym; sentiment := u "Neutral";
             reason := u "基于LLM分析的结果";
             confidence_score := Float.f0_7 |}).
Proof.
  intros Hc Hr Hj Hs Hrs Hcs.
  rewrite (real_after_content rt _ _ _ _ _ _ Hc Hr).
  rewrite (parse_response_object rt _ _ _ Hj). cbn [snd].
  unfold from_object, default_reason. rewrite Hs, Hrs, Hcs.
  cbn [default py_float].
  rewrite init_of_strings by (vm_compute; reflexivity). reflexivity.
Qed.

Lemma missing_fields_defaults_witness :
  json_loads Ref.runtime (u "{}") = Ok (PDict ∅) /\
  snd (real_analyze_news Ref.runtime (Some (Examples.answering (u "{}")))
         (u "AAPL") Examples.report_items) =
  Ok {| symbol := u "AAPL"; sentiment := u "Neutral";
        reason := u "基于LLM分析的结果"; confidence_score := Float.f0_7 |}.
Proof.
  assert (Hj : json_loads Ref.runtime (u "{}") = Ok (PDict ∅))
    by (vm_compute; reflexivity).
  split; [exact Hj |].
  eassert (Hc : call_provider Ref.runtime (Examples.answering (u "{}"))
                  (build_prompt (u "AAPL") Examples.report_items) = (_, Ok _)).
  { vm_compute. reflexivity. }
  assert (Hr : response_content [Some (u "{}")] = Ok (u "{}"))
    by (vm_compute; reflexivity).
  rewrite (missing_fields_defaults Ref.runtime _ _ _ _ _ _ _ Hc Hr Hj
             eq_refl eq_refl eq_refl).
  reflexivity.
Defined.

(** ** The endpoint on valid requests *)

(** X15: for a request with a non-empty symbol and a non-empty news list
    the endpoint logs the request, runs the orchestrator, logs its
    response and returns it. *)
Theorem valid_request_answered (rt : Runtime) (openai_client : option Client)
    (request : NewsAnalysisRequest) :
  req_symbol request <> [] ->
  news_items request <> [] ->
  exists tr r,
    real_analyze_news rt openai_client (req_symbol request) (news_items request) =
      (tr, Ok r) /\
    analyze_news rt openai_client request =
      (Logged INFO (RequestReceived (req_symbol request)
                      (length (news_items request)))
         :: tr ++ [Logged INFO (AnalysisDone r)],
       Ok r).
Proof.
  destruct request as [sym items]. cbn [req_symbol news_items].
  intros Hs Hi.
  destruct (real_analyze_news_returns rt openai_client sym items) as (tr & r & Hr).
  exists tr, r. split; [exact Hr |].
  unfold analyze_news. cbn [req_symbol news_items].
  unfold logger_info, emit. rewrite bind_ok. cbn [fst snd].
  destruct sym as [|c sym]; [congruence |].
  destruct items as [|item items]; [congruence |].
  cbn [py_not]. unfold mret at 1 2 3, M_ret.
  rewrite !bind_ok. cbn [fst snd]. rewrite Hr, !bind_ok.
  cbn [fst snd try_except]. rewrite !app_nil_r. reflexivity.
Qed.

Lemma valid_request_answered_witness :
  (u "NEU" <> [] /\ Examples.report_items <> []) /\
  exists r,
    analyze_news Ref.runtime None
      {| req_symbol := u "NEU"; news_items := Examples.report_items |} =
    ([Logged INFO (RequestReceived (u "NEU") 1);
      Logged INFO (MockAnalyze (u "NEU") 1);
      Logged INFO (AnalysisDone r)], Ok r).
Proof.
  assert (Hs : u "NEU" <> []) by (vm_compute; discriminate).
  assert (Hi : Examples.report_items <> []) by discriminate.
  split; [split; assumption |].
  destruct (valid_request_answered Ref.runtime None
              {| req_symbol := u "NEU"; news_items := Examples.report_items |}
              Hs Hi) as (tr & r & Hr & Ha).
  exists r. rewrite Ha. cbn [real_analyze_news req_symbol news_items] in Hr.
  rewrite mock_analyze_news_ok in Hr. injection Hr as <- _. reflexivity.
Defined.

(** ** Start-up, the model list and the entry point *)

(** The client object as the whole service uses it: the chat completions
    of [Client], and [models.list()] with the [id] of each listed model. *)
Record OpenAIClient := {
  chat_completions : Client;
  models_list : outcome (list pystr)
}.

(** The [openai] package: the import of [OpenAI] and its constructor. *)
Record OpenAILib := {
  import_OpenAI : outcome unit;
  OpenAI : pystr -> outcome OpenAIClient
}.

(** The log records and effects of the start-up code, by call site. *)
Inductive startup_event :=
| WarnKeyNotSet
| InfoClientReady
| ErrorInitFailed (e : exn)
| InfoStarting
| InfoStarted
| MakeDirs (path : pystr).

(** The value of the global [openai_client] as [real_analyze_news] reads it. *)
Definition chat_handle (openai_client : option OpenAIClient) : option Client :=
  chat_completions <$> openai_client.

Section Startup.

Context (rt : Runtime) (lib : OpenAILib).

Definition placeholder_key : pystr := u "your_openai_api_key_here".

(** [init_openai_client]: the trace and the new value of the global.
    The import comes first; a missing, empty or placeholder key is only
    warned about; any exception is logged and leaves no client. *)
Definition init_openai_client : list startup_event * option OpenAIClient :=
  match import_OpenAI lib with
  | Raise e => ([ErrorInitFailed e], None)
  | Ok _ =>
    match getenv rt (u "OPENAI_API_KEY") with
    | None => ([WarnKeyNotSet], None)
    | Some api_key =>
      if py_not api_key || bool_decide (api_key = placeholder_key)
      then ([WarnKeyNotSet], None)
      else
        match OpenAI lib api_key with
        | Ok client => ([InfoClientReady], Some client)
        | Raise e => ([ErrorInitFailed e], None)
        end
    end
  end.

(** [startup_event]: [makedirs] is the outcome of
    [os.makedirs("logs", exist_ok=True)]; the global starts as [None] and
    stays so when the handler raises before the initialisation. *)
Definition startup (makedirs : outcome unit)
    : list startup_event * outcome unit * option OpenAIClient :=
  match makedirs with
  | Raise e => ([InfoStarting; MakeDirs (u "logs")], Raise e, None)
  | Ok _ =>
    let '(tr, client) := init_openai_client in
    ([InfoStarting; MakeDirs (u "logs")] ++ tr ++ [InfoStarted], Ok tt, client)
  end.

(** [get_available_models]: whether the failure was logged, and the
    dictionary returned. *)
Definition get_available_models (openai_client : option OpenAIClient)
    : option exn * gmap pystr pyvalue :=
  match openai_client with
  | Some client =>
    match models_list client with
    | Ok ids =>
      (None,
       <[u "models" := PList (PStr <$> ids)]>
         (<[u "default_model" :=
              PStr (default (u "gpt-3.5-turbo") (getenv rt (u "DEFAULT_MODEL")))]> ∅))
    | Raise e =>
      (Some e,
       <[u "models" := PList [PStr (u "gpt-3.5-turbo"); PStr (u "gpt-4")]]>
         (<[u "default_model" :=
              PStr (default (u "gpt-3.5-turbo") (getenv rt (u "DEFAULT_MODEL")))]>
            (<[u "error" := PStr (exn_str rt e)]> ∅)))
    end
  | None =>
    (None,
     <[u "models" := PList [PStr (u "mock-model")]]>
       (<[u "default_model" := PStr (u "mock-model")]>
          (<[u "note" := PStr (u "OpenAI客户端未初始化，使用模拟模式")]> ∅)))
  end.

End Startup.

Module Deployments.

(** An [openai] package that imports and builds a client for any key. *)
Definition working_lib (client : OpenAIClient) : OpenAILib :=
  {| import_OpenAI := Ok tt; OpenAI := fun _ => Ok client |}.

(** A client whose chat completions answer with [text] and whose model
    listing fails. *)
Definition flaky_client (text : pystr) : OpenAIClient :=
  {| chat_completions := Examples.answering text;
     models_list := Raise (ProviderError (u "Connection error.")) |}.

(** A process environment with the given variables. *)
Definition with_env (vars : gmap pystr pystr) : Runtime := {|
  str_lower := Ref.lower;
  json_loads := Ref.loads;
  float_of_str := Ref.to_float;
  int_of_str := Ref.to_int;
  getenv := fun name => vars !! name;
  str_of_other := fun _ => None;
  exn_str := Ref.message
|}.

End Deployments.

Ltac distinct_keys :=
  let H := fresh in intros H; vm_compute in H; discriminate H.

(** X16: start-up leaves a client exactly when the package imports, the
    key is set, not empty and not the placeholder, and the constructor
    returns that client. *)
Theorem client_configured_iff (rt : Runtime) (lib : OpenAILib) (c : OpenAIClient) :
  snd (init_openai_client rt lib) = Some c <->
  (exists t, import_OpenAI lib = Ok t) /\
  exists key,
    getenv rt (u "OPENAI_API_KEY") = Some key /\
    key <> [] /\ key <> placeholder_key /\ OpenAI lib key = Ok c.
Proof.
  unfold init_openai_client. split.
  - destruct (import_OpenAI lib) as [t|e]; [| discriminate].
    destruct (getenv rt _) as [key|]; [| discriminate].
    destruct key as [|k0 key]; [discriminate |]. cbn [py_not orb].
    destruct (bool_decide _) eqn:Hp; [discriminate |].
    apply bool_decide_eq_false in Hp.
    destruct (OpenAI lib _) as [client|e] eqn:Ho; [| discriminate].
    intros [= <-]. split; [eauto |]. eexists. repeat split; eauto; discriminate.
  - intros [[t Hi] (key & Hk & Hne & Hnp & Ho)]. rewrite Hi, Hk.
    destruct key as [|k0 key]; [congruence |]. cbn [py_not orb].
    rewrite bool_decide_eq_false_2 by exact Hnp. rewrite Ho. reflexivity.
Qed.

(** X17: with the key missing, empty or left at the placeholder, the
    service starts without a client whatever the package and the log
    directory do: every analysis is the heuristic's, and the model list
    names only "mock-model". *)
Theorem unusable_key_means_heuristic (rt : Runtime) (lib : OpenAILib)
    (makedirs : outcome unit) (sym : pystr) (items : list pystr) :
  getenv rt (u "OPENAI_API_KEY") = None \/
  getenv rt (u "OPENAI_API_KEY") = Some [] \/
  getenv rt (u "OPENAI_API_KEY") = Some placeholder_key ->
  snd (startup rt lib makedirs) = None /\
  real_analyze_news rt (chat_handle (snd (startup rt lib makedirs))) sym items =
    mock_analyze_news rt sym items /\
  snd (get_available_models rt (snd (startup rt lib makedirs))) !! u "models" =
    Some (PList [PStr (u "mock-model")]).
Proof.
  intros Hk.
  assert (Hi : snd (init_openai_client rt lib) = None).
  { unfold init_openai_client. destruct (import_OpenAI lib); [| reflexivity].
    destruct Hk as [-> | [-> | ->]]; [reflexivity | reflexivity |].
    rewrite bool_decide_eq_true_2 by reflexivity.
    rewrite orb_true_r. reflexivity. }
  assert (Hs : snd (startup rt lib makedirs) = None).
  { unfold startup. destruct makedirs; [| reflexivity].
    destruct (init_openai_client rt lib) as [tr c]. exact Hi. }
  rewrite Hs. split; [reflexivity |]. split; [reflexivity |].
  cbn [get_available_models snd]. apply lookup_insert_eq.
Qed.

Lemma unusable_key_means_heuristic_witness :
  getenv (Deployments.with_env
            {[u "OPENAI_API_KEY" := placeholder_key]}) (u "OPENAI_API_KEY") =
    Some placeholder_key /\
  snd (startup (Deployments.with_env {[u "OPENAI_API_KEY" := placeholder_key]})
         (Deployments.working_lib (Deployments.flaky_client (u "ok")))
         (Ok tt)) = None.
Proof.
  assert (H : getenv (Deployments.with_env
                        {[u "OPENAI_API_KEY" := placeholder_key]})
                (u "OPENAI_API_KEY") = Some placeholder_key)
    by (vm_compute; reflexivity).
  split; [exact H |].
  exact (proj1 (unusable_key_means_heuristic _
                  (Deployments.working_lib (Deployments.flaky_client (u "ok")))
                  (Ok tt) [] [] (or_intror (or_intror H)))).
Defined.

(** X18: the model list always has a list of model names under "models"
    and a name under "default_model"; it has an "error" entry exactly when
    a client is configured and its listing raised, and a "note" entry
    exactly when no client is configured. *)
Theorem models_answer_shape (rt : Runtime) (openai_client : option OpenAIClient) :
  (exists ids,
      snd (get_available_models rt openai_client) !! u "models" =
      Some (PList (PStr <$> ids))) /\
  (exists name,
      snd (get_available_models rt openai_client) !! u "default_model" =
      Some (PStr name)) /\
  (is_Some (snd (get_available_models rt openai_client) !! u "error") <->
   exists client e, openai_client = Some client /\ models_list client = Raise e) /\
  (is_Some (snd (get_available_models rt openai_client) !! u "note") <->
   openai_client = None).
Proof.
  assert (Hmd : u "models" <> u "default_model") by distinct_keys.
  assert (Hme : u "models" <> u "error") by distinct_keys.
  assert (Hmn : u "models" <> u "note") by distinct_keys.
  assert (Hde : u "default_model" <> u "error") by distinct_keys.
  assert (Hdn : u "default_model" <> u "note") by distinct_keys.
  assert (Hen : u "error" <> u "note") by distinct_keys.
  unfold get_available_models.
  destruct openai_client as [client|]; [destruct (models_list client) as [ids|e] eqn:Hl |];
    cbn [snd].
  - split; [exists ids; apply lookup_insert_eq |].
    split; [eexists; rewrite lookup_insert_ne by exact Hmd; apply lookup_insert_eq |].
    split.
    + rewrite !lookup_insert_ne, lookup_empty by congruence. split.
      * intros [x Hx]. discriminate.
      * intros (c & e & [= <-] & He). congruence.
    + rewrite !lookup_insert_ne, lookup_empty by congruence. split.
      * intros [x Hx]. discriminate.
      * discriminate.
  - split; [exists [u "gpt-3.5-turbo"; u "gpt-4"]; apply lookup_insert_eq |].
    split; [eexists; rewrite lookup_insert_ne by exact Hmd; apply lookup_insert_eq |].
    split.
    + split; [intros _; eauto |]. intros _.
      rewrite !lookup_insert_ne by congruence. rewrite lookup_insert_eq. eauto.
    + rewrite !lookup_insert_ne, lookup_empty by congruence. split.
      * intros [x Hx]. discriminate.
      * discriminate.
  - split; [exists [u "mock-model"]; apply lookup_insert_eq |].
    split; [eexists; rewrite lookup_insert_ne by exact Hmd; apply lookup_insert_eq |].
    split.
    + rewrite !lookup_insert_ne, lookup_empty by congruence. split.
      * intros [x Hx]. discriminate.
      * intros (c & e & Hc & _). discriminate.
    + split; [reflexivity |]. intros _.
      rewrite !lookup_insert_ne by congruence. rewrite lookup_insert_eq. eauto.
Qed.

(** ** Blank answers *)

Lemma lstrip_blank s : Forall (fun c => isspace c = true) s -> lstrip s = [].
Proof.
  induction 1 as [|c s Hc _ IH]; [reflexivity |].
  cbn [lstrip]. rewrite Hc. exact IH.
Qed.

Lemma strip_blank s : Forall (fun c => isspace c = true) s -> strip s = [].
Proof.
  intros H. unfold strip, rstrip. rewrite (lstrip_blank s H). reflexivity.
Qed.

(** X19: an answer made of white space only is not a provider failure:
    provided [json.loads] refuses the empty text and the lower-cased empty
    text is empty, the response is Neutral with confidence 0.8 and an
    empty reason. *)
Theorem blank_answer_is_neutral (rt : Runtime) (client : Client) (sym : pystr)
    (items : list pystr) (tr : list event) (text : pystr) (rest : ChatResponse) :
  json_loads rt [] = Raise JSONDecodeError ->
  str_lower rt [] = [] ->
  call_provider rt client (build_prompt sym items) = (tr, Ok (Some text :: rest)) ->
  Forall (fun c => isspace c = true) text ->
  real_analyze_news rt (Some client) sym items =
  (tr, Ok {| symbol := sym; sentiment := u "Neutral"; reason := [];
             confidence_score := Float.f0_8 |}).
Proof.
  intros Hj Hl Hc Hb.
  assert (Hr : response_content (Some text :: rest) = Ok []).
  { cbn [response_content]. rewrite (strip_blank text Hb). reflexivity. }
  rewrite (real_loose rt _ _ _ _ _ _ Hc Hr Hj).
  unfold loose_sentiment, loose_reason. rewrite Hl. reflexivity.
Qed.

Lemma blank_answer_is_neutral_witness :
  (json_loads Ref.runtime [] = Raise JSONDecodeError /\
   str_lower Ref.runtime [] = [] /\
   Forall (fun c => isspace c = true) [32%N; 10%N; 12288%N]) /\
  snd (real_analyze_news Ref.runtime
         (Some (Examples.answering [32%N; 10%N; 12288%N]))
         (u "AAPL") Examples.aapl_items) =
  Ok {| symbol := u "AAPL"; sentiment := u "Neutral"; reason := [];
        confidence_score := Float.f0_8 |}.
Proof.
  assert (Hj : json_loads Ref.runtime [] = Raise JSONDecodeError)
    by (vm_compute; reflexivity).
  assert (Hl : str_lower Ref.runtime [] = []) by reflexivity.
  assert (Hb : Forall (fun c => isspace c = true) [32%N; 10%N; 12288%N]).
  { repeat (apply Forall_cons; split; [vm_compute; reflexivity |]).
    apply Forall_nil_2. }
  split; [repeat split; assumption |].
  eassert (Hc : call_provider Ref.runtime
                  (Examples.answering [32%N; 10%N; 12288%N])
                  (build_prompt (u "AAPL") Examples.aapl_items) = (_, Ok _)).
  { vm_compute. reflexivity. }
  rewrite (blank_answer_is_neutral Ref.runtime _ _ _ _ _ _ Hj Hl Hc Hb).
  reflexivity.
Defined.
